(** * Reflect MCP server: OAuth handler and MCP tools

    A shallow embedding of the TypeScript sources of the Reflect MCP
    worker ([index.ts] and [reflect-handler.ts]) together with the
    properties its specification states about them.

    Layout: the embedded program comes first (modules [Js], [Index],
    [Http], [Worker], [ReflectHandler], then [OAuthUtilsSpec] for the
    imported module that is not among the sources, and [Fixtures] with
    concrete collaborators); the properties follow. *)

From Stdlib Require Import ZArith Lia Bool List Ascii String.
From Stdlib Require Import Numbers.DecimalString.
From stdpp Require Import base option gmap strings sorting.

Local Open Scope string_scope.
Local Open Scope Z_scope.

(** ** JavaScript runtime notions shared by both source files *)
Module Js.

(** A JavaScript [Error] value: [name] and [message]. *)
Record JsError : Type := mkError { err_name : string; err_message : string }.

(** [new Error(msg)]. *)
Definition Error (msg : string) : JsError := mkError "Error" msg.

(** [String(e)] for an error object, [Error.prototype.toString]. *)
Definition String_of_error (e : JsError) : string :=
  if String.eqb (err_name e) "" then err_message e
  else if String.eqb (err_message e) "" then err_name e
  else err_name e ++ ": " ++ err_message e.

(** How a statement list ends: normally with a value, or by a [throw]. *)
Inductive Completion (E A : Type) : Type :=
  | Normal (a : A)
  | Throw (e : E).
Arguments Normal {E A} a.
Arguments Throw {E A} e.

(** Effectful code threads a state [S] (request log, key-value store,
    random source) and may throw an [E]. *)
Definition Eff (S E A : Type) : Type := S -> Completion E A * S.

Definition ret {S E A} (a : A) : Eff S E A := fun s => (Normal a, s).
Definition throw {S E A} (e : E) : Eff S E A := fun s => (Throw e, s).
Definition bind {S E A B} (m : Eff S E A) (k : A -> Eff S E B) : Eff S E B :=
  fun s => match m s with
           | (Normal a, s') => k a s'
           | (Throw e, s') => (Throw e, s')
           end.

(** [try { body } catch (e) { handler e }]: state changes made before the
    throw are kept. *)
Definition try_catch {S E F A} (body : Eff S E A) (handler : E -> Eff S F A)
  : Eff S F A :=
  fun s => match body s with
           | (Normal a, s') => (Normal a, s')
           | (Throw e, s') => handler e s'
           end.

Definition get {S E} : Eff S E S := fun s => (Normal s, s).
Definition modify {S E} (f : S -> S) : Eff S E unit := fun s => (Normal tt, f s).

Declare Scope eff_scope.
Delimit Scope eff_scope with eff.
Notation "'let!' x ':=' m 'in' k" := (bind m (fun x => k))
  (at level 10, x name, m at level 200, k at level 200, only parsing) : eff_scope.

(** Truthiness of a string and of an optional (possibly [undefined]) string. *)
Definition truthy (s : string) : bool := negb (String.eqb s "").
Definition truthy_opt (o : option string) : bool :=
  match o with Some s => truthy s | None => false end.

(** The double quote character, code 34. *)
Definition dquote : ascii := ascii_of_N 34.
Definition backslash : ascii := ascii_of_N 92.

(** Decimal rendering of an integer, as template literals render numbers. *)
Definition Z_to_string (z : Z) : string := NilZero.string_of_int (Z.to_int z).

(** JSON values. Numbers are restricted to integers. *)
#[local] Set Warnings "-register-all".
Inductive json : Type :=
  | JNull
  | JBool (b : bool)
  | JNum (z : Z)
  | JStr (s : string)
  | JArr (l : list json)
  | JObj (l : list (string * json)).
#[local] Set Warnings "register-all".

Definition hex_digit (n : N) : ascii :=
  if (n <? 10)%N then ascii_of_N (48 + n) else ascii_of_N (87 + n).

(** [QuoteJSONString] on one code unit. *)
Definition escape_char (c : ascii) : string :=
  let n := N_of_ascii c in
  if (n =? 34)%N then String backslash (String dquote "")
  else if (n =? 92)%N then String backslash (String backslash "")
  else if (n =? 8)%N then String backslash "b"
  else if (n =? 12)%N then String backslash "f"
  else if (n =? 10)%N then String backslash "n"
  else if (n =? 13)%N then String backslash "r"
  else if (n =? 9)%N then String backslash "t"
  else if (n <? 32)%N then
    String backslash ("u00" ++ String (hex_digit (n / 16)) (String (hex_digit (n mod 16)) ""))
  else String c "".

Fixpoint escape (s : string) : string :=
  match s with
  | EmptyString => ""
  | String c r => escape_char c ++ escape r
  end.

Definition quote (s : string) : string :=
  String dquote (escape s ++ String dquote "").

(** [JSON.stringify] without indentation. *)
Fixpoint stringify (j : json) : string :=
  match j with
  | JNull => "null"
  | JBool true => "true"
  | JBool false => "false"
  | JNum z => Z_to_string z
  | JStr s => quote s
  | JArr l =>
      let fix items (l : list json) : string :=
        match l with
        | [] => ""
        | [x] => stringify x
        | x :: r => stringify x ++ "," ++ items r
        end in
      "[" ++ items l ++ "]"
  | JObj l =>
      let fix members (l : list (string * json)) : string :=
        match l with
        | [] => ""
        | [(k, v)] => quote k ++ ":" ++ stringify v
        | (k, v) :: r => quote k ++ ":" ++ stringify v ++ "," ++ members r
        end in
      "{" ++ members l ++ "}"
  end.

(** [s.split(sep)[0]] for a one-character separator: the text before the
    first occurrence of [sep], the whole string when there is none. *)
Fixpoint split_first (sep : ascii) (s : string) : string :=
  match s with
  | EmptyString => ""
  | String c r => if Ascii.eqb c sep then "" else String c (split_first sep r)
  end.

(** [l.join(sep)]. *)
Fixpoint join (sep : string) (l : list string) : string :=
  match l with
  | [] => ""
  | [x] => x
  | x :: r => x ++ sep ++ join sep r
  end.

(** The line feed, code 10. *)
Definition newline : string := String (ascii_of_N 10) "".

(** *** Date *)

Definition msPerDay : Z := 86400000.

(** [Day(t)] and the time within the day. *)
Definition Day (t : Z) : Z := t / msPerDay.
Definition TimeWithinDay (t : Z) : Z := t mod msPerDay.

(** Proleptic Gregorian calendar from a day number counted from
    1970-01-01, by 400-year eras starting on March 1st. *)
Definition era_of (z : Z) : Z := (z + 719468) / 146097.
Definition doe_of (z : Z) : Z := (z + 719468) - era_of z * 146097.
Definition yoe_d (doe : Z) : Z :=
  (doe - doe / 1460 + doe / 36524 - doe / 146096) / 365.
Definition doy_d (doe : Z) : Z :=
  doe - (365 * yoe_d doe + yoe_d doe / 4 - yoe_d doe / 100).
Definition mp_d (doe : Z) : Z := (5 * doy_d doe + 2) / 153.
Definition yoe_of (z : Z) : Z := yoe_d (doe_of z).
Definition doy_of (z : Z) : Z := doy_d (doe_of z).
Definition mp_of (z : Z) : Z := mp_d (doe_of z).

Definition DateFromDay (z : Z) : Z := doy_of z - (153 * mp_of z + 2) / 5 + 1.
Definition MonthFromDay (z : Z) : Z :=
  if mp_of z <? 10 then mp_of z + 3 else mp_of z - 9.
Definition YearFromDay (z : Z) : Z :=
  yoe_of z + era_of z * 400 + (if MonthFromDay z <=? 2 then 1 else 0).

(** [YearFromTime], [MonthFromTime] + 1 and [DateFromTime]. *)
Definition YearFromTime (t : Z) : Z := YearFromDay (Day t).
Definition MonthFromTime1 (t : Z) : Z := MonthFromDay (Day t).
Definition DateFromTime (t : Z) : Z := DateFromDay (Day t).
Definition HourFromTime (t : Z) : Z := TimeWithinDay t / 3600000.
Definition MinFromTime (t : Z) : Z := (TimeWithinDay t / 60000) mod 60.
Definition SecFromTime (t : Z) : Z := (TimeWithinDay t / 1000) mod 60.
Definition msFromTime (t : Z) : Z := TimeWithinDay t mod 1000.

(** The day number of year-month-day ([MakeDay]); a day past the end of
    the month runs into the next one. *)
Definition MakeDay (y m d : Z) : Z :=
  let y' := if m <=? 2 then y - 1 else y in
  let era := y' / 400 in
  let yoe := y' - era * 400 in
  let mp := if 2 <? m then m - 3 else m + 9 in
  let doy := (153 * mp + 2) / 5 in
  era * 146097 + (yoe * 365 + yoe / 4 - yoe / 100 + doy) - 719468 + (d - 1).

Definition digit_char (d : Z) : ascii := ascii_of_N (48 + Z.to_N (d mod 10)).

(** [w] decimal digits of [n], zero padded on the left. *)
Fixpoint pad (w : nat) (n : Z) : string :=
  match w with
  | O => ""
  | S w' => pad w' (n / 10) ++ String (digit_char n) ""
  end.

(** [Date.prototype.toISOString] of a valid time value:
    YYYY-MM-DDTHH:mm:ss.sssZ, or a signed six-digit year outside 0..9999. *)
Definition toISOString (t : Z) : string :=
  let y := YearFromTime t in
  let year :=
    if (0 <=? y) && (y <=? 9999) then pad 4 y
    else if y <? 0 then "-" ++ pad 6 (- y)
    else "+" ++ pad 6 y in
  year ++ "-" ++ pad 2 (MonthFromTime1 t) ++ "-" ++ pad 2 (DateFromTime t)
    ++ "T" ++ pad 2 (HourFromTime t) ++ ":" ++ pad 2 (MinFromTime t)
    ++ ":" ++ pad 2 (SecFromTime t) ++ "." ++ pad 3 (msFromTime t) ++ "Z".

(** The clock range 0000-01-01T00:00:00.000Z .. 9999-12-31T23:59:59.999Z. *)
Definition four_digit_year (t : Z) : Prop :=
  -62167219200000 <= t <= 253402300799999.

Definition is_digit (c : ascii) : bool :=
  ((48 <=? N_of_ascii c) && (N_of_ascii c <=? 57))%N.

Definition digit_value (c : ascii) : Z := Z.of_N (N_of_ascii c) - 48.

(** The engine's date parser, [new Date(s).getTime()]: [None] is NaN. *)
Class DateParser : Type := Date_parse : string -> option Z.

(** V8 on a date-only ISO string YYYY-MM-DD (the runtime of the worker):
    the month must lie in 1..12 and the day in 1..31, whatever the month;
    the result is midnight UTC. Other shapes are not dates here. *)
Definition Date_parse_v8 : DateParser := fun s =>
  match s with
  | String y1 (String y2 (String y3 (String y4 (String s1
      (String m1 (String m2 (String s2 (String d1 (String d2 EmptyString))))))))) =>
      if forallb is_digit [y1; y2; y3; y4; m1; m2; d1; d2]
         && Ascii.eqb s1 "-" && Ascii.eqb s2 "-"
      then
        let y := 1000 * digit_value y1 + 100 * digit_value y2
                 + 10 * digit_value y3 + digit_value y4 in
        let m := 10 * digit_value m1 + digit_value m2 in
        let d := 10 * digit_value d1 + digit_value d2 in
        if (1 <=? m) && (m <=? 12) && (1 <=? d) && (d <=? 31)
        then Some (MakeDay y m d * msPerDay)
        else None
      else None
  | _ => None
  end.

(** *** fetch *)

(** An outbound [fetch] call. *)
Record FetchRequest : Type := mkFetch {
  fetch_url : string;
  fetch_method : string;
  fetch_headers : list (string * string);
  fetch_body : option string
}.

(** What the code reads of a fetched [Response]: [ok], [status], [text()],
    and [json()], which throws on a body that is not JSON. *)
Record FetchResponse : Type := mkResponse {
  resp_ok : bool;
  resp_status : Z;
  resp_text : string;
  resp_json : Completion JsError json
}.

(** The network: [fetch] resolves to a response or rejects. *)
Class Network : Type := network : FetchRequest -> Completion JsError FetchResponse.

End Js.

(** ** index.ts: the MCP agent and its two tools *)
Module Index.
Import Js.
Local Open Scope eff_scope.

(** [Props]: what the OAuth flow hands to the agent. *)
Record Props : Type := mkProps { accessTokenId : string; accessToken : string }.

(** The state threaded by a tool call is the log of requests it sent. *)
Definition Tool (A : Type) : Type := Eff (list FetchRequest) JsError A.

Definition fetch `{Network} (r : FetchRequest) : Tool FetchResponse :=
  fun log => (network r, (log ++ [r])%list).

Definition lift {A} (c : Completion JsError A) : Tool A := fun log => (c, log).

(** A tool result: [{ content: [{ type: "text", text }] }]. *)
Record ContentItem : Type := mkItem { item_type : string; item_text : string }.
Record ToolResult : Type := mkResult { content : list ContentItem }.

Definition text_result (text : string) : ToolResult :=
  mkResult [mkItem "text" text].

Definition not_authenticated : json :=
  JObj [("error", JStr "Not authenticated. Please complete OAuth flow first.")].

(** [this.props?.accessToken]. *)
Definition props_accessToken (props : option Props) : option string :=
  accessToken <$> props.

(** [/^\d{4}-\d{2}-\d{2}$/.test(s)]: the pattern as a list of one-character
    classes, matched against the whole string. *)
Inductive CharClass : Type := Digit | Lit (c : ascii).

Definition class_matches (k : CharClass) (c : ascii) : bool :=
  match k with
  | Digit => is_digit c
  | Lit l => Ascii.eqb c l
  end.

Fixpoint regex_test (p : list CharClass) (s : string) : bool :=
  match p, s with
  | [], EmptyString => true
  | k :: p', String c s' => class_matches k c && regex_test p' s'
  | _, _ => false
  end.

Definition dateRegex : list CharClass :=
  [Digit; Digit; Digit; Digit; Lit "-"; Digit; Digit; Lit "-"; Digit; Digit].

(** [getValidDate(dateInput?)]; [now] is the clock read by [new Date()]. *)
Definition getValidDate `{DateParser} (now : Z) (dateInput : option string) : string :=
  let fallback := split_first "T" (toISOString now) in
  match dateInput with
  | Some s =>
      if truthy s then
        if regex_test dateRegex s then
          match Date_parse s with
          | Some _ => s
          | None => fallback
          end
        else fallback
      else fallback
  | None => fallback
  end.

(** The part of both tools after the request is built: send it, fail on a
    status that is not ok, print the JSON body; any throw becomes a result. *)
Definition call_reflect `{Network} (r : FetchRequest) : Tool ToolResult :=
  try_catch
    (let! response := fetch r in
     let! _ := (if negb (resp_ok response)
                then throw (Error ("HTTP error! status: "
                                   ++ Z_to_string (resp_status response)))
                else ret tt) in
     let! data := lift (resp_json response) in
     ret (text_result (stringify data)))
    (fun e => ret (text_result (stringify (JObj [("error", JStr (String_of_error e))])))).

(** Tool [get_reflect_graphs]. *)
Definition get_reflect_graphs `{Network} (props : option Props) : Tool ToolResult :=
  match props_accessToken props with
  | Some tok =>
      if truthy tok then
        call_reflect
          (mkFetch "https://reflect.app/api/graphs" "GET"
             [("Authorization", "Bearer " ++ tok)] None)
      else ret (text_result (stringify not_authenticated))
  | None => ret (text_result (stringify not_authenticated))
  end.

(** The PUT request of [append_to_reflect_daily_notes]. *)
Definition daily_notes_request (tok graph_id : string) (body : json) : FetchRequest :=
  mkFetch ("https://reflect.app/api/graphs/" ++ graph_id ++ "/daily-notes") "PUT"
    [("Authorization", "Bearer " ++ tok); ("Content-Type", "application/json")]
    (Some (stringify body)).

(** Tool [append_to_reflect_daily_notes], first revision: no date. *)
Definition append_to_reflect_daily_notes_v1 `{Network}
    (props : option Props) (content_arg graph_id : string) : Tool ToolResult :=
  match props_accessToken props with
  | Some tok =>
      if truthy tok then
        call_reflect
          (daily_notes_request tok graph_id
             (JObj [("text", JStr content_arg); ("transform_type", JStr "list-append")]))
      else ret (text_result (stringify not_authenticated))
  | None => ret (text_result (stringify not_authenticated))
  end.

(** The body of the dated revision. *)
Definition dated_body (validDate text : string) : json :=
  JObj [("date", JStr validDate); ("text", JStr text);
        ("transform_type", JStr "list-append")].

(** Tool [append_to_reflect_daily_notes], second revision: the optional date. *)
Definition append_to_reflect_daily_notes_v2 `{Network} `{DateParser} (now : Z)
    (props : option Props) (content_arg graph_id : string) (date : option string)
  : Tool ToolResult :=
  match props_accessToken props with
  | Some tok =>
      if truthy tok then
        let validDate := getValidDate now date in
        call_reflect (daily_notes_request tok graph_id (dated_body validDate content_arg))
      else ret (text_result (stringify not_authenticated))
  | None => ret (text_result (stringify not_authenticated))
  end.

(** The body of the third revision. *)
Definition tasks_body (validDate text : string) : json :=
  JObj [("date", JStr validDate); ("text", JStr text);
        ("transform_type", JStr "list-append"); ("list_name", JStr "[[Claude-Notes]]")].

(** The text of the third revision: the content, then the tasks, one per
    line, each after a plus sign. *)
Definition textToAppend (content_arg : option string) (tasks : option (list string))
  : string :=
  let parts := if truthy_opt content_arg then [default "" content_arg] else [] in
  let parts :=
    match tasks with
    | Some (t :: ts) =>
        app parts [join newline (List.map (fun task => "+ " ++ task) (t :: ts))]
    | _ => parts
    end in
  join newline parts.

(** Tool [append_to_reflect_daily_notes], third revision: content and tasks. *)
Definition append_to_reflect_daily_notes_v3 `{Network} `{DateParser} (now : Z)
    (props : option Props) (content_arg : option string) (tasks : option (list string))
    (graph_id : string) (date : option string) : Tool ToolResult :=
  match props_accessToken props with
  | Some tok =>
      if truthy tok then
        let validDate := getValidDate now date in
        let text := textToAppend content_arg tasks in
        if negb (truthy text) then
          ret (text_result
                 (stringify (JObj [("error", JStr "Either content or tasks must be provided.")])))
        else call_reflect (daily_notes_request tok graph_id (tasks_body validDate text))
      else ret (text_result (stringify not_authenticated))
  | None => ret (text_result (stringify not_authenticated))
  end.

(** The text every tool answers with when there is no access token. *)
Definition not_authenticated_text : string :=
  "{" ++ String dquote "error" ++ String dquote ":"
    ++ String dquote "Not authenticated. Please complete OAuth flow first."
    ++ String dquote "}".

(** [!accessToken] on [this.props?.accessToken]. *)
Definition no_token (props : option Props) : Prop :=
  truthy_opt (props_accessToken props) = false.

(** The date part of an ISO string with a four-digit year. *)
Definition date_part (t : Z) : string :=
  pad 4 (YearFromTime t) ++ "-" ++ pad 2 (MonthFromTime1 t)
    ++ "-" ++ pad 2 (DateFromTime t).

(** [now.toISOString().split('T')[0]]. *)
Definition today (now : Z) : string := split_first "T" (toISOString now).

(** The inputs [getValidDate] returns unchanged: present, of the shape
    YYYY-MM-DD, and parsed by the engine to a valid date. *)
Definition accepted `{DateParser} (dateInput : option string) : bool :=
  match dateInput with
  | Some s => regex_test dateRegex s && bool_decide (is_Some (Date_parse s))
  | None => false
  end.

(** The date field of a request body built by the dated revisions. *)
Definition body_date (body : json) : option string :=
  match body with
  | JObj (("date", JStr d) :: _) => Some d
  | _ => None
  end.

End Index.

(** ** HTTP values: requests, header lists, responses *)
Module Http.
Import Js.

(** A value of a submitted form: a string or a file. *)
Inductive FormValue : Type := FString (s : string) | FFile.

(** What the routes read of the incoming [Request]: its URL, the query,
    the cookies it carries and the outcome of [formData()]. *)
Record Request : Type := mkRequest {
  req_url : string;
  req_query : list (string * string);
  req_cookies : gmap string string;
  req_form : Completion JsError (list (string * FormValue))
}.

(** [formData.get(name)] and [c.req.query(name)]: the first value. *)
Fixpoint assoc {A} (k : string) (l : list (string * A)) : option A :=
  match l with
  | [] => None
  | (k', v) :: r => if String.eqb k' k then Some v else assoc k r
  end.

(** Header names are case-insensitive and kept in lower case. *)
Definition lower_char (c : ascii) : ascii :=
  let n := N_of_ascii c in
  if ((65 <=? n) && (n <=? 90))%N then ascii_of_N (n + 32) else c.

Fixpoint lower (s : string) : string :=
  match s with
  | EmptyString => ""
  | String c r => String (lower_char c) (lower r)
  end.

(** The [Headers] class: a header list in insertion order. *)
Definition Headers : Type := list (string * string).

Definition headers_append (name value : string) (h : Headers) : Headers :=
  (h ++ [(lower name, value)])%list.

(** [set]: the first header of that name takes the value, the others of
    that name go; appended when there is none. *)
Fixpoint headers_set_first (name value : string) (h : Headers) : option Headers :=
  match h with
  | [] => None
  | (n, v) :: r =>
      if String.eqb n name
      then Some ((n, value) :: List.filter (fun e => negb (String.eqb (fst e) name)) r)
      else option_map (cons (n, v)) (headers_set_first name value r)
  end.

Definition headers_set (name value : string) (h : Headers) : Headers :=
  match headers_set_first (lower name) value h with
  | Some h' => h'
  | None => headers_append name value h
  end.

(** Every value held for a header name. *)
Definition header_values (name : string) (h : Headers) : list string :=
  List.map snd (List.filter (fun e => String.eqb (fst e) (lower name)) h).

Definition has_header (name : string) (h : Headers) : bool :=
  match header_values name h with [] => false | _ => true end.

(** Iterating a [Headers] object: names in sorted order, the values of one
    name joined by a comma and a space, except [set-cookie], whose values
    stay separate entries in insertion order. *)
Definition headers_entries (h : Headers) : list (string * string) :=
  let names := merge_sort (fun a b => String.leb a b) (remove_dups (List.map fst h)) in
  List.flat_map
    (fun n =>
       if String.eqb n "set-cookie"
       then List.map (fun v => (n, v)) (header_values n h)
       else [(n, join ", " (header_values n h))])
    names.

(** A plain object used as a record of strings: assigning an existing key
    replaces its value in place. *)
Definition Obj : Type := list (string * string).

Fixpoint obj_set (k v : string) (o : Obj) : Obj :=
  match o with
  | [] => [(k, v)]
  | (k', v') :: r => if String.eqb k' k then (k', v) :: r else (k', v') :: obj_set k v r
  end.

(** [Object.fromEntries]: later entries overwrite earlier ones of the same key. *)
Definition Object_fromEntries (es : list (string * string)) : Obj :=
  List.fold_left (fun o e => obj_set (fst e) (snd e) o) es [].

(** [new Headers(init)] from a record. *)
Definition headers_of_obj (o : Obj) : Headers :=
  List.fold_left (fun h e => headers_append (fst e) (snd e) h) o [].

Record Response : Type := mkResp {
  status : Z;
  headers : Headers;
  body : option string
}.

(** Hono's [c.text(text, status)]. *)
Definition text (t : string) (st : Z) : Response :=
  mkResp st [("content-type", "text/plain; charset=UTF-8")] (Some t).

End Http.

(** ** The worker's environment and the interfaces the routes import *)
Module Worker.
Import Js Http.

(** [AuthRequest] of the OAuth provider library: the pending authorization
    request of the MCP client. *)
Record AuthRequest : Type := mkAuthRequest {
  responseType : string;
  clientId : string;
  redirectUri : string;
  scope : list string;
  state : string
}.

(** The bindings read from [env]. *)
Record Env : Type := mkEnv {
  COOKIE_ENCRYPTION_KEY : string;
  REFLECT_CLIENT_ID : string;
  REFLECT_CLIENT_SECRET : string
}.

(** One entry of the [OAUTH_KV] namespace: the stored request and the
    instant (in ms) at which the store drops it. *)
Record KvEntry : Type := mkEntry { kv_value : AuthRequest; kv_expires : Z }.

(** Everything a request handler can observe or change: the key-value
    store, the clock, the random source with its read position, the
    console and the outbound requests. *)
Record World : Type := mkWorld {
  kv : gmap string KvEntry;
  now : Z;
  entropy : nat -> string;
  cursor : nat;
  console : list string;
  sent : list FetchRequest
}.

Definition set_kv (f : gmap string KvEntry -> gmap string KvEntry) (w : World) : World :=
  mkWorld (f (kv w)) (now w) (entropy w) (cursor w) (console w) (sent w).
Definition set_cursor (n : nat) (w : World) : World :=
  mkWorld (kv w) (now w) (entropy w) n (console w) (sent w).
Definition add_console (line : string) (w : World) : World :=
  mkWorld (kv w) (now w) (entropy w) (cursor w) (console w ++ [line])%list (sent w).
Definition add_sent (r : FetchRequest) (w : World) : World :=
  mkWorld (kv w) (now w) (entropy w) (cursor w) (console w) (sent w ++ [r])%list.

(** Modelled from the spec: the error taxonomy of section 7 and the single
    typed error [OAuthError] of the module workers-oauth-utils, which is not
    among the sources. An [OAuthError] names its kind, a description, and
    the headers to attach to its response. *)
Inductive ErrorKind : Type :=
  | CSRFMismatch
  | IntegrityError
  | NoBinding
  | UnknownOrExpiredState.

Record OAuthError : Type := mkOAuthError {
  oe_kind : ErrorKind;
  oe_description : string;
  oe_headers : Headers
}.

(** A thrown value: an [OAuthError] ([error instanceof OAuthError]) or any
    other error. *)
Inductive Exn : Type :=
  | OAuthErr (e : OAuthError)
  | JsErr (e : JsError).

(** [error.message]. *)
Definition message (e : Exn) : string :=
  match e with
  | OAuthErr o => oe_description o
  | JsErr j => err_message j
  end.

Definition Handler (A : Type) : Type := Eff World Exn A.

Definition lift {A} (c : Completion Exn A) : Handler A := fun w => (c, w).
Definition lift_js {A} (c : Completion JsError A) : Handler A :=
  fun w => (match c with Normal a => Normal a | Throw e => Throw (JsErr e) end, w).

Definition console_log (line : string) : Handler unit := modify (add_console line).

Definition fetch `{Network} (r : FetchRequest) : Handler FetchResponse :=
  fun w => (match network r with Normal a => Normal a | Throw e => Throw (JsErr e) end,
            add_sent r w).

(** [OAuthHelpers], the [OAUTH_PROVIDER] binding. *)
Record ClientInfo : Type := mkClient { client_id : string; client_name : string }.

Record CompleteAuthorizationOptions : Type := mkComplete {
  co_metadata_label : option json;
  co_props_accessToken : option json;
  co_props_accessTokenId : option json;
  co_request : AuthRequest;
  co_scope : list string;
  co_userId : option json
}.

Class OAuthHelpers : Type := {
  parseAuthRequest : Request -> Completion Exn AuthRequest;
  lookupClient : string -> Completion Exn (option ClientInfo);
  completeAuthorization : CompleteAuthorizationOptions -> Completion Exn string
}.

(** The argument of [getUpstreamAuthorizeUrl] from ./utils. *)
Record UpstreamParams : Type := mkUpstream {
  up_client_id : string;
  up_redirect_uri : string;
  up_scope : string;
  up_upstream_url : string;
  up_response_type : string;
  up_state : string
}.

(** The state object carried by the consent form. *)
Record ConsentState : Type := mkConsent { oauthReqInfo : option AuthRequest }.

(** The options of [renderApprovalDialog]. *)
Record ApprovalDialogOptions : Type := mkDialog {
  dlg_client : option ClientInfo;
  dlg_csrfToken : string;
  dlg_server_description : string;
  dlg_server_name : string;
  dlg_setCookie : string;
  dlg_state : ConsentState
}.

(** Built-ins and ./utils: URL resolution, form encoding, decoding of the
    consent state ([JSON.parse(atob(s))], which throws on text that is not
    base64 or not JSON and may yield [null], here [None]) and the upstream
    URL builder. *)
Class Runtime : Type := {
  URL_href : string -> string -> string;
  URLSearchParams_toString : list (string * string) -> string;
  parse_state : string -> Completion JsError (option ConsentState);
  getUpstreamAuthorizeUrl : UpstreamParams -> string
}.

(** The functions imported from ./workers-oauth-utils, a module that is not
    among the sources: the routes are written against this interface. *)
Class OAuthUtils : Type := {
  isClientApproved : Request -> string -> string -> Completion Exn bool;
  generateCSRFProtection : Handler (string * string);
  validateCSRFToken : list (string * FormValue) -> Request -> Completion Exn unit;
  addApprovedClient : Request -> string -> string -> Completion Exn string;
  createOAuthState : AuthRequest -> Handler string;
  bindStateToSession : string -> Handler string;
  validateOAuthState : Request -> Handler (AuthRequest * string);
  toResponse : OAuthError -> Response;
  renderApprovalDialog : Request -> ApprovalDialogOptions -> Response
}.

(** The same module with the approval check answering [b] for every
    request: two runs that differ in the approval status only. *)
Definition with_approval (b : bool) (U : OAuthUtils) : OAuthUtils := {|
  isClientApproved _ _ _ := Normal b;
  generateCSRFProtection := @generateCSRFProtection U;
  validateCSRFToken := @validateCSRFToken U;
  addApprovedClient := @addApprovedClient U;
  createOAuthState := @createOAuthState U;
  bindStateToSession := @bindStateToSession U;
  validateOAuthState := @validateOAuthState U;
  toResponse := @toResponse U;
  renderApprovalDialog := @renderApprovalDialog U
|}.

(** Property access [data.k] on a parsed JSON value: a [TypeError] on null,
    [undefined] on a missing key or on a value that is not an object; the
    last of several equal keys wins, as in [JSON.parse]. *)
Definition member (data : json) (k : string) : Completion JsError (option json) :=
  match data with
  | JNull => Throw (mkError "TypeError" ("Cannot read properties of null (reading '" ++ k ++ "')"))
  | JObj l => Normal (assoc k (rev l))
  | _ => Normal None
  end.

Definition json_truthy (v : option json) : bool :=
  match v with
  | None | Some JNull => false
  | Some (JBool b) => b
  | Some (JNum z) => negb (z =? 0)
  | Some (JStr s) => truthy s
  | Some (JArr _) | Some (JObj _) => true
  end.

(** A value inside a template literal or passed to [console.log]. *)
Definition show (v : option json) : string :=
  match v with
  | None => "undefined"
  | Some (JStr s) => s
  | Some j => stringify j
  end.

End Worker.

(** ** reflect-handler.ts: the three routes *)
Module ReflectHandler.
Import Js Http Worker.
Local Open Scope eff_scope.

Section Routes.
Context `{OAuthHelpers} `{Runtime} `{Network} `{OAuthUtils}.
Variable env : Env.

(** [app.get("/authorize")]. *)
Definition authorize_get (c : Request) : Handler Response :=
  let! oauthReqInfo := lift (parseAuthRequest c) in
  if negb (truthy (clientId oauthReqInfo)) then ret (text "Invalid request" 400)
  else
    let! approved :=
      lift (isClientApproved c (clientId oauthReqInfo) (COOKIE_ENCRYPTION_KEY env)) in
    let! _ := (if approved then ret tt else ret tt) in
    let! csrf := generateCSRFProtection in
    let! client := lift (lookupClient (clientId oauthReqInfo)) in
    ret (renderApprovalDialog c
           (mkDialog client (fst csrf)
              "This MCP Server is For Reflect OAuth." "Reflect MCP Server"
              (snd csrf) (mkConsent (Some oauthReqInfo)))).

(** [redirectToReflect(request, stateToken, headers)]. *)
Definition redirectToReflect (request : Request) (stateToken : string) (hs : Obj)
  : Response :=
  let location :=
    getUpstreamAuthorizeUrl
      (mkUpstream (REFLECT_CLIENT_ID env)
         (URL_href "/oauth/callback" (req_url request))
         "read:graph,write:graph" "https://reflect.app/oauth" "code" stateToken) in
  mkResp 302 (headers_of_obj (obj_set "location" location hs)) None.

(** The [try] block of [app.post("/authorize")]. *)
Definition authorize_post_try (c : Request) : Handler Response :=
  let! formData := lift_js (req_form c) in
  let! _ := lift (validateCSRFToken formData c) in
  match assoc "state" formData with
  | Some (FString encodedState) =>
      if negb (truthy encodedState) then ret (text "Missing state in form data" 400)
      else
        match parse_state encodedState with
        | Throw _ => ret (text "Invalid state data" 400)
        | Normal None =>
            throw (JsErr (mkError "TypeError"
                            "Cannot read properties of null (reading 'oauthReqInfo')"))
        | Normal (Some st) =>
            match oauthReqInfo st with
            | None => ret (text "Invalid request" 400)
            | Some info =>
                if negb (truthy (clientId info)) then ret (text "Invalid request" 400)
                else
                  let! approvedClientCookie :=
                    lift (addApprovedClient c (clientId info) (COOKIE_ENCRYPTION_KEY env)) in
                  let! stateToken := createOAuthState info in
                  let! sessionCookie := bindStateToSession stateToken in
                  let hs := headers_append "Set-Cookie" sessionCookie
                              (headers_append "Set-Cookie" approvedClientCookie []) in
                  ret (redirectToReflect c stateToken
                         (Object_fromEntries (headers_entries hs)))
            end
        end
  | _ => ret (text "Missing state in form data" 400)
  end.

(** [app.post("/authorize")]: the [try] block and its [catch]. *)
Definition authorize_post (c : Request) : Handler Response :=
  try_catch (authorize_post_try c)
    (fun error =>
       let! _ := console_log ("POST /authorize error: " ++ message error) in
       match error with
       | OAuthErr e => ret (toResponse e)
       | JsErr _ => ret (text ("Internal server error: " ++ message error) 500)
       end).

(** The request sent to the token endpoint of Reflect. *)
Definition token_request (c : Request) (code : string) : FetchRequest :=
  mkFetch "https://reflect.app/api/oauth/token" "POST"
    [("Content-Type", "application/x-www-form-urlencoded")]
    (Some (URLSearchParams_toString
             [("grant_type", "authorization_code");
              ("code", code);
              ("client_id", REFLECT_CLIENT_ID env);
              ("client_secret", REFLECT_CLIENT_SECRET env);
              ("redirect_uri", URL_href "/oauth/callback" (req_url c))])).

(** The final redirect of the callback: [Location], and [Set-Cookie] when a
    clear-cookie header was returned. *)
Definition callback_redirect (redirectTo clearSessionCookie : string) : Response :=
  let hs := headers_of_obj [("Location", redirectTo)] in
  let hs := if truthy clearSessionCookie
            then headers_set "Set-Cookie" clearSessionCookie hs else hs in
  mkResp 302 hs None.

(** The callback once the state is validated. *)
Definition callback_exchange (c : Request) (info : AuthRequest)
    (clearSessionCookie : string) : Handler Response :=
  if negb (truthy (clientId info)) then ret (text "Invalid OAuth request data" 400)
  else
    match assoc "code" (req_query c) with
    | None => ret (text "Missing code" 400)
    | Some code =>
        if negb (truthy code) then ret (text "Missing code" 400)
        else
          let! _ := console_log "Attempting token exchange with params:" in
          let! response := fetch (token_request c code) in
          if negb (resp_ok response) then
            let errorText := resp_text response in
            let! _ := console_log ("Token exchange failed: "
                                   ++ Z_to_string (resp_status response)
                                   ++ " " ++ errorText) in
            ret (text ("Failed to fetch access token: "
                       ++ Z_to_string (resp_status response) ++ " " ++ errorText) 500)
          else
            let! data := lift_js (resp_json response) in
            let! accessToken := lift_js (member data "access_token") in
            let! accessTokenId := lift_js (member data "access_token_id") in
            if negb (json_truthy accessToken) then ret (text "Missing access token" 400)
            else
              let! _ := console_log ("Completing authorization with user: "
                                     ++ show accessTokenId) in
              let! redirectTo :=
                lift (completeAuthorization
                        (mkComplete accessTokenId accessToken accessTokenId
                           info (scope info) accessTokenId)) in
              ret (callback_redirect redirectTo clearSessionCookie)
    end.

(** [app.get("/oauth/callback")]. *)
Definition oauth_callback (c : Request) : Handler Response :=
  let! validated :=
    try_catch
      (let! result := validateOAuthState c in ret (inl result))
      (fun error =>
         match error with
         | OAuthErr e => ret (inr (toResponse e))
         | JsErr _ => ret (inr (text "Internal server error" 500))
         end) in
  match validated with
  | inr response => ret response
  | inl (info, clearSessionCookie) => callback_exchange c info clearSessionCookie
  end.

End Routes.

(** The plain-text error responses the callback builds itself. *)
Definition route_error (r : Response) : Prop :=
  exists t st, r = text t st /\ (st = 400 \/ st = 500).

End ReflectHandler.

(** ** workers-oauth-utils, modelled from the specification

    The module ./workers-oauth-utils is imported by reflect-handler.ts but
    is not among the sources. Its components are modelled here from
    sections 4.1 to 4.6 of the specification. *)
Module OAuthUtilsSpec.
Import Js Http Worker.

(** Modelled from the spec: the Cookie Cipher (4.1), missing from the
    sources. [seal plaintext key] gives the opaque string; [open opaque key]
    gives the plaintext back, or [None] for the one [IntegrityError]. Only
    the contract is given: opening what was sealed under the same key
    succeeds. *)
Class CookieCipher : Type := {
  seal : string -> string -> string;
  open : string -> string -> option string;
  open_seal : forall plaintext key, open (seal plaintext key) key = Some plaintext
}.

(** Modelled from the spec: the serialisation of the ApprovedClientSet
    into the ledger cookie (3), whose format the spec leaves open. *)
Class LedgerCodec : Type := {
  encode : list string -> string;
  decode : string -> option (list string);
  decode_encode : forall ids, decode (encode ids) = Some ids
}.

(** Modelled from the spec: a Set-Cookie header (6): name, value, lifetime
    in seconds and path; every cookie is HTTP-only, secure and host-scoped. *)
Record SetCookie : Type := mkCookie {
  sc_name : string;
  sc_value : string;
  sc_max_age : Z;
  sc_path : string
}.

(** Modelled from the spec: the header text of a cookie of
    workers-oauth-utils, with the attributes of section 6. *)
Definition render_cookie (c : SetCookie) : string :=
  sc_name c ++ "=" ++ sc_value c ++ "; HttpOnly; Secure; Path=" ++ sc_path c
    ++ "; SameSite=Lax; Max-Age=" ++ Z_to_string (sc_max_age c).

(** Modelled from the spec: the browser obeying a Set-Cookie header of
    workers-oauth-utils (3, 4.5): a lifetime of zero expires
    the cookie at once, any other stores the value under the name. *)
Definition browser_store (c : SetCookie) (jar : gmap string string) : gmap string string :=
  if sc_max_age c <=? 0 then delete (sc_name c) jar
  else <[sc_name c := sc_value c]> jar.

(** The same request carrying the cookies [jar]. *)
Definition with_cookies (jar : gmap string string) (r : Request) : Request :=
  mkRequest (req_url r) (req_query r) jar (req_form r).

(** The next request of the same browser after it received [c]. *)
Definition revisit (c : SetCookie) (r : Request) : Request :=
  with_cookies (browser_store c (req_cookies r)) r.

(** Modelled from the spec: the random source behind the tokens of
    workers-oauth-utils (4.2, 4.4): the value under the cursor, which
    advances. *)
Definition random_token {E} : Eff World E string :=
  fun w => (Normal (entropy w (cursor w)), set_cursor (S (cursor w)) w).

(** *** 4.2 CSRF Guard *)
Module CSRFGuard.

(** Modelled from the spec: the CSRF cookie of workers-oauth-utils (4.2),
    short-lived and scoped to the authorize path; the spec leaves its name
    open. *)
Definition cookieName : string := "__Host-CSRF_TOKEN".

(** Modelled from the spec: the cookie header of [generate] (4.2). *)
Definition cookie_of (token : string) : SetCookie :=
  mkCookie cookieName token 600 "/authorize".

(** Modelled from the spec: [generate() -> {token, cookieHeader}]. *)
Definition generate : Handler (string * SetCookie) :=
  fun w => match random_token (E := Exn) w with
           | (Normal token, w') => (Normal (token, cookie_of token), w')
           | (Throw e, w') => (Throw e, w')
           end.

(** Modelled from the spec: the constant-time comparison of [validate]
    (4.2), missing with workers-oauth-utils: the differences of all
    positions are accumulated with or before the single test. *)
Fixpoint diff_acc (a b : string) (acc : N) : N :=
  match a, b with
  | String x a', String y b' =>
      diff_acc a' b' (N.lor acc (N.lxor (N_of_ascii x) (N_of_ascii y)))
  | _, _ => acc
  end.

(** Modelled from the spec: equal lengths and no accumulated difference. *)
Definition timingSafeEqual (a b : string) : bool :=
  (String.length a =? String.length b)%nat && (diff_acc a b 0 =? 0)%N.

(** Modelled from the spec: the failure of [validate], an [OAuthError] of
    kind CSRFMismatch (4.2, 7). *)
Definition mismatch : Exn :=
  OAuthErr (mkOAuthError CSRFMismatch "CSRF token mismatch" []).

(** Modelled from the spec: [validate(submittedToken, requestCookies)]:
    the cookie must be present, the submitted token must be present, and
    both must be equal under the constant-time comparison. *)
Definition validate (submittedToken : option string) (cookies : gmap string string)
  : Completion Exn unit :=
  match cookies !! cookieName with
  | None => Throw mismatch
  | Some cookieValue =>
      match submittedToken with
      | None => Throw mismatch
      | Some token =>
          if timingSafeEqual token cookieValue then Normal tt else Throw mismatch
      end
  end.

(** Modelled from the spec: the submitted token of [validateCSRFToken],
    read from the consent form (6); a file is not a token, and the spec
    leaves the field name open. *)
Definition form_token (formData : list (string * FormValue)) : option string :=
  match assoc "csrf_token" formData with
  | Some (FString s) => Some s
  | _ => None
  end.

End CSRFGuard.

(** *** 4.3 Approved-Client Ledger *)
Module Ledger.
Section Ledger.
Context `{CookieCipher} `{LedgerCodec}.

(** Modelled from the spec: the ledger cookie of workers-oauth-utils
    (4.3); the spec leaves its name open. *)
Definition cookieName : string := "__Host-APPROVED_CLIENTS".

(** Modelled from the spec: the ledger a request carries (4.3), read by
    the missing [isClientApproved]: [None] when the cookie is missing, does
    not open under the key, or does not decode. *)
Definition read (request : Request) (key : string) : option (list string) :=
  match req_cookies request !! cookieName with
  | None => None
  | Some v =>
      match open v key with
      | None => None
      | Some plaintext => decode plaintext
      end
  end.

(** Modelled from the spec: [isApproved(request, clientId, key) -> bool]. *)
Definition isApproved (request : Request) (clientId : string) (key : string) : bool :=
  match read request key with
  | None => false
  | Some ids => bool_decide (clientId ∈ ids)
  end.

(** Modelled from the spec: insertion into the ApprovedClientSet (3), a
    set: a client already present is not added twice. *)
Definition insert_client (clientId : string) (ids : list string) : list string :=
  if bool_decide (clientId ∈ ids) then ids else (ids ++ [clientId])%list.

(** Modelled from the spec: [addApprovedClient(request, clientId, key) ->
    cookieHeader]: the existing ledger, or the empty one when the cookie is
    missing or corrupt, with [clientId] inserted, sealed again. *)
Definition addApprovedClient (request : Request) (clientId : string) (key : string)
  : SetCookie :=
  let existing := default [] (read request key) in
  mkCookie cookieName (seal (encode (insert_client clientId existing)) key)
    31536000 "/".

(** Modelled from the spec: a ledger cookie of workers-oauth-utils is
    corrupt (4.3) when it does not open under the key or its plaintext does
    not decode. *)
Definition corrupt (value key : string) : Prop :=
  match open value key with
  | None => True
  | Some plaintext => decode plaintext = None
  end.

End Ledger.
End Ledger.

(** *** 4.4 State Store *)
Module StateStore.

(** Modelled from the spec: the expiration of a state entry (4.4) of
    workers-oauth-utils, ten minutes, in milliseconds. *)
Definition ttl : Z := 600000.

(** Modelled from the spec: [create(pendingRequest) -> stateToken]: a fresh
    random token, the entry written with its expiration. *)
Definition create {E} (pendingRequest : AuthRequest) : Eff World E string :=
  fun w => match random_token (E := E) w with
           | (Normal token, w') =>
               (Normal token,
                set_kv (insert token (mkEntry pendingRequest (now w' + ttl))) w')
           | (Throw e, w') => (Throw e, w')
           end.

(** Modelled from the spec: the lookup of [consume] (4.4): the request
    stored under a token, unless the entry has expired. *)
Definition live (w : World) (stateToken : string) : option AuthRequest :=
  match kv w !! stateToken with
  | Some e => if now w <? kv_expires e then Some (kv_value e) else None
  | None => None
  end.

(** Modelled from the spec: [consume(stateToken)]: lookup, then delete. *)
Definition consume (stateToken : string) : Eff World ErrorKind AuthRequest :=
  fun w => match live w stateToken with
           | Some pendingRequest => (Normal pendingRequest, set_kv (delete stateToken) w)
           | None => (Throw UnknownOrExpiredState, w)
           end.

End StateStore.

(** *** 4.5 Session Binder *)
Module SessionBinder.
Section SessionBinder.
Context `{CookieCipher}.

(** The binding cookie, named in the comment of the callback route. *)
Definition cookieName : string := "__Host-CONSENTED_STATE".

(** Modelled from the spec: [bind(stateToken) -> {cookieHeader}]. *)
Definition bind (key stateToken : string) : SetCookie :=
  mkCookie cookieName (seal stateToken key) 600 "/".

(** Modelled from the spec: [unbind() -> clearCookieHeader]. *)
Definition unbind : SetCookie := mkCookie cookieName "" 0 "/".

(** Modelled from the spec: [readBoundToken(requestCookies, key)]. *)
Definition readBoundToken (cookies : gmap string string) (key : string)
  : Completion ErrorKind string :=
  match cookies !! cookieName with
  | None => Throw NoBinding
  | Some v =>
      match open v key with
      | None => Throw NoBinding
      | Some stateToken => Normal stateToken
      end
  end.

End SessionBinder.
End SessionBinder.

(** *** 4.6 Callback Validator *)
Module CallbackValidator.
Section CallbackValidator.
Context `{CookieCipher}.

(** Modelled from the spec: the [OAuthError] of the missing
    [validateOAuthState] (4.6, step 4): the clear-cookie header is computed
    whatever the outcome, and an error carries it to its response. *)
Definition failure (kind : ErrorKind) (description : string) : Exn :=
  OAuthErr (mkOAuthError kind description
              [("set-cookie", render_cookie SessionBinder.unbind)]).

(** Modelled from the spec: [validate(request, store)], steps 1 to 4: the
    token is read from the binding cookie and is the key consumed from the
    store; the query of the request is not consulted. *)
Definition validate (key : string) (request : Request) : Handler (AuthRequest * SetCookie) :=
  fun w =>
    let clearCookieHeader := SessionBinder.unbind in
    match SessionBinder.readBoundToken (req_cookies request) key with
    | Throw _ => (Throw (failure NoBinding "missing or invalid session binding"), w)
    | Normal boundStateToken =>
        match StateStore.consume boundStateToken w with
        | (Normal pendingRequest, w') => (Normal (pendingRequest, clearCookieHeader), w')
        | (Throw _, w') =>
            (Throw (failure UnknownOrExpiredState "unknown or expired state"), w')
        end
    end.

End CallbackValidator.
End CallbackValidator.

(** Modelled from the spec: the module workers-oauth-utils as the routes
    import it, assembled from the components above. The key of the binder
    and of the validator comes from the environment; the dialog renderer is
    an external collaborator; an [OAuthError] is answered with status 400
    and one uniform text (6, 7). *)
Definition Model `{CookieCipher} `{LedgerCodec} (key : string)
    (render : Request -> ApprovalDialogOptions -> Response) : OAuthUtils := {|
  isClientApproved request clientId k := Normal (Ledger.isApproved request clientId k);
  generateCSRFProtection := fun w =>
    match CSRFGuard.generate w with
    | (Normal (token, c), w') => (Normal (token, render_cookie c), w')
    | (Throw e, w') => (Throw e, w')
    end;
  validateCSRFToken formData request :=
    CSRFGuard.validate (CSRFGuard.form_token formData) (req_cookies request);
  addApprovedClient request clientId k :=
    Normal (render_cookie (Ledger.addApprovedClient request clientId k));
  createOAuthState := StateStore.create;
  bindStateToSession stateToken := ret (render_cookie (SessionBinder.bind key stateToken));
  validateOAuthState request := fun w =>
    match CallbackValidator.validate key request w with
    | (Normal (pendingRequest, c), w') => (Normal (pendingRequest, render_cookie c), w')
    | (Throw e, w') => (Throw e, w')
    end;
  toResponse e :=
    mkResp 400 (("content-type", "text/plain; charset=UTF-8") :: oe_headers e)
      (Some "Authorization failed");
  renderApprovalDialog := render
|}.

End OAuthUtilsSpec.

(** ** Concrete collaborators on which the routes can be run *)
Module Fixtures.
Import Js Http Worker OAuthUtilsSpec.

(** A cipher that meets the contract of 4.1 and nothing more: the sealed
    value is the plaintext behind the key and a bar. *)
Fixpoint strip_prefix (pre s : string) : option string :=
  match pre, s with
  | EmptyString, _ => Some s
  | String a p, String b r => if Ascii.eqb a b then strip_prefix p r else None
  | String _ _, EmptyString => None
  end.

Definition prefix_seal (plaintext key : string) : string := (key ++ "|") ++ plaintext.
Definition prefix_open (opaque key : string) : option string :=
  strip_prefix (key ++ "|") opaque.

Lemma strip_prefix_append pre s : strip_prefix pre (pre ++ s) = Some s.
Proof.
  induction pre as [|a p IH]; [reflexivity|].
  change (String a p ++ s) with (String a (p ++ s)). cbn [strip_prefix].
  rewrite Ascii.eqb_refl. exact IH.
Qed.

Definition PrefixCipher : CookieCipher :=
  {| seal := prefix_seal; open := prefix_open;
     open_seal := fun plaintext key => strip_prefix_append (key ++ "|") plaintext |}.

(** A ledger format: every character of an identifier after a dot, a
    comma after every identifier. *)
Fixpoint encode_id (s rest : string) : string :=
  match s with
  | EmptyString => String "," rest
  | String c r => String "." (String c (encode_id r rest))
  end.

Fixpoint encode_ids (ids : list string) : string :=
  match ids with
  | [] => ""
  | x :: r => encode_id x (encode_ids r)
  end.

Fixpoint decode_ids_from (s cur : string) (acc : list string) : option (list string) :=
  match s with
  | EmptyString => match cur with EmptyString => Some (rev acc) | _ => None end
  | String "." (String c r) => decode_ids_from r (cur ++ String c "") acc
  | String "," r => decode_ids_from r "" (cur :: acc)
  | _ => None
  end.

Definition decode_ids (s : string) : option (list string) := decode_ids_from s "" [].

Lemma append_assoc (a b c : string) : (a ++ b) ++ c = a ++ (b ++ c).
Proof.
  induction a as [|x a IH]; [reflexivity|].
  change (String x a ++ b) with (String x (a ++ b)).
  change (String x (a ++ b) ++ c) with (String x ((a ++ b) ++ c)).
  change (String x a ++ (b ++ c)) with (String x (a ++ (b ++ c))).
  now rewrite IH.
Qed.

Lemma decode_encode_id x rest cur acc :
  decode_ids_from (encode_id x rest) cur acc = decode_ids_from rest "" ((cur ++ x) :: acc).
Proof.
  revert cur. induction x as [|c x IH]; intros cur; cbn [encode_id decode_ids_from].
  - replace (cur ++ "") with cur; [reflexivity|].
    induction cur as [|y cur IHc]; [reflexivity|].
    change (String y cur ++ "") with (String y (cur ++ "")). now rewrite <- IHc.
  - rewrite IH, append_assoc. reflexivity.
Qed.

Lemma decode_encode_ids ids acc :
  decode_ids_from (encode_ids ids) "" acc = Some (rev acc ++ ids)%list.
Proof.
  revert acc. induction ids as [|x ids IH]; intros acc; cbn [encode_ids].
  - cbn [decode_ids_from]. now rewrite app_nil_r.
  - rewrite decode_encode_id, IH. cbn [rev]. now rewrite <- app_assoc.
Qed.

Definition DotCodec : LedgerCodec :=
  {| encode := encode_ids; decode := decode_ids;
     decode_encode := fun ids => decode_encode_ids ids [] |}.

Definition demo_env : Env := mkEnv "k3y" "reflect-client" "reflect-secret".

Definition demo_request : AuthRequest :=
  mkAuthRequest "code" "demo" "https://client.example/callback" ["read"] "s0".

(** The provider: the client identifier is read from the query. *)
Definition demo_helpers : OAuthHelpers :=
  {| parseAuthRequest r :=
       Normal (mkAuthRequest "code" (default "" (assoc "client_id" (req_query r)))
                 "https://client.example/callback" ["read"] "s0");
     lookupClient id := Normal (Some (mkClient id "Demo client"));
     completeAuthorization o := Normal (redirectUri (co_request o) ++ "?code=granted") |}.

(** Three encoded states: the demo request, an empty object and null;
    anything else does not decode. *)
Definition demo_runtime : Runtime :=
  {| URL_href path base := "https://mcp.example" ++ path;
     URLSearchParams_toString l :=
       join "&" (List.map (fun e => fst e ++ "=" ++ snd e) l);
     parse_state s :=
       if String.eqb s "ZGVtbw" then Normal (Some (mkConsent (Some demo_request)))
       else if String.eqb s "e30" then Normal (Some (mkConsent None))
       else if String.eqb s "bnVsbA" then Normal None
       else Throw (mkError "SyntaxError" "Unexpected token");
     getUpstreamAuthorizeUrl p :=
       up_upstream_url p ++ "?client_id=" ++ up_client_id p ++ "&state=" ++ up_state p |}.

(** An upstream that grants a token, one that refuses, one that is down. *)
Definition upstream_grants : Network := fun _ =>
  Normal (mkResponse true 200 "ok"
            (Normal (JObj [("access_token", JStr "at-1"); ("access_token_id", JStr "id-1")]))).

Definition upstream_refuses : Network := fun _ =>
  Normal (mkResponse false 401 "invalid_client: secret mismatch for reflect-client"
            (Throw (mkError "SyntaxError" "Unexpected token"))).

Definition upstream_down : Network := fun _ =>
  Throw (mkError "TypeError" "fetch failed").

Definition demo_render (r : Request) (o : ApprovalDialogOptions) : Response :=
  mkResp 200 [("content-type", "text/html"); ("set-cookie", dlg_setCookie o)]
    (Some ("<form>" ++ dlg_csrfToken o ++ "</form>")).

Definition demo_utils : OAuthUtils :=
  @Model PrefixCipher DotCodec (COOKIE_ENCRYPTION_KEY demo_env) demo_render.

(** A world with an empty store; the random source yields T1, T2, ... *)
Definition world0 : World :=
  mkWorld ∅ 1764460800000 (fun n => "T" ++ Z_to_string (Z.of_nat (S n))) 0 [] [].

Definition bare_request : Request :=
  mkRequest "https://mcp.example/authorize" [("client_id", "demo")] ∅ (Normal []).

Definition callback_request (query : list (string * string)) (boundToken : string)
  : Request :=
  revisit (@SessionBinder.bind PrefixCipher (COOKIE_ENCRYPTION_KEY demo_env) boundToken)
    (mkRequest "https://mcp.example/oauth/callback" query ∅ (Normal [])).

(** The module when the key-value store cannot be reached: validation
    throws an error that is not an [OAuthError]. *)
Definition store_down_utils : OAuthUtils := {|
  isClientApproved := @isClientApproved demo_utils;
  generateCSRFProtection := @generateCSRFProtection demo_utils;
  validateCSRFToken := @validateCSRFToken demo_utils;
  addApprovedClient := @addApprovedClient demo_utils;
  createOAuthState _ := throw (JsErr (Error "KV GET failed: 503 Service Unavailable"));
  bindStateToSession := @bindStateToSession demo_utils;
  validateOAuthState _ := throw (JsErr (Error "KV GET failed: 503 Service Unavailable"));
  toResponse := @toResponse demo_utils;
  renderApprovalDialog := @renderApprovalDialog demo_utils
|}.

(** The world after the consent of the demo client was submitted: its
    state is stored under T1. *)
Definition consent_form : Request :=
  mkRequest "https://mcp.example/authorize" [] {[CSRFGuard.cookieName := "c1"]}
    (Normal [("csrf_token", FString "c1"); ("state", FString "ZGVtbw")]).

Definition after_consent : World :=
  snd (@ReflectHandler.authorize_post demo_runtime demo_utils demo_env consent_form world0).

(** A browser whose ledger approves the demo client. *)
Definition approved_browser : Request :=
  revisit (@Ledger.addApprovedClient PrefixCipher DotCodec bare_request "demo" "k3y")
    bare_request.

End Fixtures.

(** ** Auxiliary notions for the properties of the tools and routes *)
Module Observations.
Import Js Index Http Worker.

(** The request [get_reflect_graphs] sends for a token. *)
Definition graphs_request (tok : string) : FetchRequest :=
  mkFetch "https://reflect.app/api/graphs" "GET"
    [("Authorization", "Bearer " ++ tok)] None.

(** The text of a tool result that reports an error. *)
Definition error_text (msg : string) : string :=
  stringify (JObj [("error", JStr msg)]).

(** [tasks && tasks.length > 0]. *)
Definition has_tasks (tasks : option (list string)) : bool :=
  match tasks with
  | Some (_ :: _) => true
  | _ => false
  end.

(** The requests the tools hand to [fetch] for a token and a graph
    identifier: the GET of the graphs URL, or a PUT of the daily-notes URL
    into which the identifier is inserted as given. *)
Definition reflect_api_call (tok graph_id : string) (r : FetchRequest) : Prop :=
  assoc "Authorization" (fetch_headers r) = Some ("Bearer " ++ tok)
  /\ ((fetch_method r = "GET" /\ fetch_url r = "https://reflect.app/api/graphs")
      \/ (fetch_method r = "PUT"
          /\ fetch_url r
             = "https://reflect.app/api/graphs/" ++ graph_id ++ "/daily-notes")).

(** The ten decimal digits. *)
Definition decimal_digit (c : ascii) : Prop :=
  In c (list_ascii_of_string "0123456789").

(** The text YYYY-MM-DD made of eight characters and two hyphens. *)
Definition date_text (y1 y2 y3 y4 m1 m2 d1 d2 : ascii) : string :=
  String y1 (String y2 (String y3 (String y4 (String "-"
    (String m1 (String m2 (String "-" (String d1 (String d2 EmptyString))))))))).

(** A text of the shape YYYY-MM-DD: eight decimal digits, hyphens after
    the fourth and the sixth. *)
Definition iso_date_shape (s : string) : Prop :=
  exists y1 y2 y3 y4 m1 m2 d1 d2,
    s = date_text y1 y2 y3 y4 m1 m2 d1 d2
    /\ Forall decimal_digit [y1; y2; y3; y4; m1; m2; d1; d2].

(** The texts V8 takes for a date among those of the shape YYYY-MM-DD: the
    month is 01..12 and the day 01..31, whatever the month. *)
Definition v8_accepts (s : string) : Prop :=
  exists y1 y2 y3 y4 m1 m2 d1 d2,
    s = date_text y1 y2 y3 y4 m1 m2 d1 d2
    /\ Forall decimal_digit [y1; y2; y3; y4; m1; m2; d1; d2]
    /\ 1 <= 10 * digit_value m1 + digit_value m2 <= 12
    /\ 1 <= 10 * digit_value d1 + digit_value d2 <= 31.

(** Two worlds that differ at most in what was written to the console. *)
Definition same_but_console (w w' : World) : Prop :=
  kv w' = kv w /\ now w' = now w /\ entropy w' = entropy w
  /\ cursor w' = cursor w /\ sent w' = sent w.

(** A consent submission that passes the checks of POST /authorize made
    before any state is created: the form is readable, the CSRF check
    passes, and the state field decodes to a request with a client. *)
Definition valid_submission `{Runtime} `{OAuthUtils} (c : Request) (info : AuthRequest)
  : Prop :=
  exists formData encodedState,
    req_form c = Normal formData
    /\ validateCSRFToken formData c = Normal tt
    /\ assoc "state" formData = Some (FString encodedState)
    /\ truthy encodedState = true
    /\ parse_state encodedState = Normal (Some (mkConsent (Some info)))
    /\ truthy (clientId info) = true.

(** The token endpoint granted a token for the request of the callback:
    the response is ok and its JSON holds a truthy access token. *)
Definition granted `{Runtime} `{Network} (env : Env) (c : Request)
    (accessToken accessTokenId : option json) : Prop :=
  exists code response data,
    assoc "code" (req_query c) = Some code /\ truthy code = true
    /\ network (ReflectHandler.token_request env c code) = Normal response
    /\ resp_ok response = true
    /\ resp_json response = Normal data
    /\ member data "access_token" = Normal accessToken
    /\ member data "access_token_id" = Normal accessTokenId
    /\ json_truthy accessToken = true.

(** The ways the token exchange of the callback breaks with a thrown
    error [e]: the fetch is rejected; the ok response has a body that is
    not JSON; the JSON is null, so that reading its access token throws;
    or [completeAuthorization] throws. *)
Definition exchange_breaks `{OAuthHelpers} `{Runtime} `{Network} (env : Env)
    (c : Request) (info : AuthRequest) (code : string) (e : Exn) : Prop :=
  (exists e0, e = JsErr e0 /\ network (ReflectHandler.token_request env c code) = Throw e0)
  \/ exists response,
       network (ReflectHandler.token_request env c code) = Normal response
       /\ resp_ok response = true
       /\ ((exists e0, e = JsErr e0 /\ resp_json response = Throw e0)
           \/ exists data,
                resp_json response = Normal data
                /\ ((exists e0, e = JsErr e0 /\ member data "access_token" = Throw e0)
                    \/ exists accessToken accessTokenId,
                         member data "access_token" = Normal accessToken
                         /\ member data "access_token_id" = Normal accessTokenId
                         /\ json_truthy accessToken = true
                         /\ completeAuthorization
                              (mkComplete accessTokenId accessToken accessTokenId info
                                 (scope info) accessTokenId) = Throw e)).

(** A consent form whose state field decodes to JSON null. *)
Definition null_state_form : Request :=
  mkRequest "https://mcp.example/authorize" []
    {[OAuthUtilsSpec.CSRFGuard.cookieName := "c1"]}
    (Normal [("csrf_token", FString "c1"); ("state", FString "bnVsbA")]).

(** The callback of the demo flow, with its code. *)
Definition demo_callback : Request :=
  Fixtures.callback_request [("code", "xyz"); ("state", "T1")] "T1".

(** A record of headers as [Object.fromEntries] over a [Headers] object
    gives it: no key twice, every key in lower case. *)
Definition header_record (hs : Obj) : Prop :=
  NoDup (List.map fst hs) /\ Forall (fun e => lower (fst e) = fst e) hs.

End Observations.

(** * Properties *)

(** ** The calendar arithmetic behind [toISOString] *)
Section Calendar.
Import Js.

Lemma doe_range z : 0 <= doe_of z <= 146096.
Proof. unfold doe_of, era_of. Z.to_euclidean_division_equations. lia. Qed.

Lemma yoe_range d : 0 <= d <= 146096 -> 0 <= yoe_d d <= 399.
Proof. intros Hd. unfold yoe_d. Z.to_euclidean_division_equations. lia. Qed.

Lemma doy_range d : 0 <= d <= 146096 -> 0 <= doy_d d <= 365.
Proof. intros Hd. unfold doy_d, yoe_d. Z.to_euclidean_division_equations. lia. Qed.

Lemma mp_range d : 0 <= d <= 146096 -> 0 <= mp_d d <= 11.
Proof.
  intros Hd. pose proof (doy_range d Hd) as Hy. unfold mp_d.
  generalize dependent (doy_d d). intros y Hy.
  Z.to_euclidean_division_equations. lia.
Qed.

(** The day of the month lies in 1..31 and the month in 1..12. *)
Lemma DateFromDay_range z : 1 <= DateFromDay z <= 31.
Proof.
  pose proof (doy_range _ (doe_range z)) as Hy.
  unfold DateFromDay, mp_of, doy_of, mp_d.
  generalize dependent (doy_d (doe_of z)). intros y Hy.
  Z.to_euclidean_division_equations. lia.
Qed.

Lemma MonthFromDay_range z : 1 <= MonthFromDay z <= 12.
Proof.
  pose proof (mp_range _ (doe_range z)) as Hm. unfold MonthFromDay, mp_of.
  destruct (Z.ltb_spec (mp_d (doe_of z)) 10); lia.
Qed.

(** The last sixty days of an era are January and February of its last
    year; before them the year of the era is below 399 or the month is
    March or later. *)
Lemma late_cycle d : 146037 <= d <= 146096 -> yoe_d d = 399 /\ 10 <= mp_d d.
Proof.
  intros Hd.
  assert (Hy : yoe_d d = 399) by (unfold yoe_d; Z.to_euclidean_division_equations; lia).
  split; [exact Hy|]. unfold mp_d, doy_d. rewrite Hy.
  change (399 / 4) with 99. change (399 / 100) with 3.
  Z.to_euclidean_division_equations; lia.
Qed.

Lemma early_cycle d : 0 <= d <= 146036 -> yoe_d d <= 398 \/ mp_d d <= 9.
Proof.
  intros Hd. destruct (Z_le_gt_dec (yoe_d d) 398) as [Hy|Hy]; [left; exact Hy|right].
  assert (Hy' : yoe_d d = 399)
    by (revert Hy; unfold yoe_d; Z.to_euclidean_division_equations; lia).
  unfold mp_d, doy_d. rewrite Hy'.
  change (399 / 4) with 99. change (399 / 100) with 3.
  Z.to_euclidean_division_equations; lia.
Qed.

(** Days from 0000-01-01 to 9999-12-31 have a four-digit year. *)
Lemma YearFromDay_range z :
  -719528 <= z <= 2932896 -> 0 <= YearFromDay z <= 9999.
Proof.
  intros Hz. pose proof (doe_range z) as Hd.
  pose proof (yoe_range _ Hd) as Hy. pose proof (mp_range _ Hd) as Hm.
  assert (Hq : -1 <= era_of z <= 24)
    by (unfold era_of; Z.to_euclidean_division_equations; lia).
  assert (Hlo : era_of z = -1 -> 146037 <= doe_of z) by (unfold doe_of; lia).
  assert (Hhi : era_of z = 24 -> doe_of z <= 146036) by (unfold doe_of; lia).
  pose proof (late_cycle (doe_of z)) as L. pose proof (early_cycle (doe_of z)) as E.
  unfold YearFromDay, MonthFromDay, yoe_of, mp_of.
  destruct (Z.ltb_spec (mp_d (doe_of z)) 10);
    destruct (Z.leb_spec (mp_d (doe_of z) + 3) 2);
    destruct (Z.leb_spec (mp_d (doe_of z) - 9) 2); lia.
Qed.

Lemma YearFromTime_range t : four_digit_year t -> 0 <= YearFromTime t <= 9999.
Proof.
  intros Ht. apply YearFromDay_range. unfold four_digit_year in Ht.
  unfold Day, msPerDay. Z.to_euclidean_division_equations. lia.
Qed.

End Calendar.

(** ** index.ts: [getValidDate] and the two tools *)
Section IndexProperties.
Import Js Index.

Lemma digit_char_is_digit x : is_digit (digit_char x) = true.
Proof.
  unfold is_digit, digit_char.
  assert (Hx : (Z.to_N (x mod 10) < 10)%N)
    by (pose proof (Z.mod_pos_bound x 10); lia).
  rewrite N_ascii_embedding by lia.
  apply andb_true_intro; split; apply N.leb_le; lia.
Qed.

Lemma digit_is_not c sep :
  is_digit c = true -> is_digit sep = false -> Ascii.eqb c sep = false.
Proof. intros Hc Hs. apply Ascii.eqb_neq. intros ->. congruence. Qed.

Lemma digit_char_not_T x : Ascii.eqb (digit_char x) "T" = false.
Proof. apply digit_is_not; [apply digit_char_is_digit | reflexivity]. Qed.

Lemma date_part_shape t : regex_test dateRegex (date_part t) = true.
Proof.
  unfold date_part. cbv [pad String.append].
  cbn [regex_test dateRegex class_matches].
  rewrite !digit_char_is_digit. reflexivity.
Qed.

Lemma today_date_part now : four_digit_year now -> today now = date_part now.
Proof.
  intros Hnow. pose proof (YearFromTime_range now Hnow) as [Hlo Hhi].
  unfold today, toISOString, date_part.
  apply Z.leb_le in Hlo, Hhi. cbv zeta. rewrite Hlo, Hhi.
  cbv [pad String.append andb]. cbn [split_first].
  rewrite !digit_char_not_T. reflexivity.
Qed.

Lemma today_shape now : four_digit_year now -> regex_test dateRegex (today now) = true.
Proof. intros Hnow. rewrite today_date_part by exact Hnow. apply date_part_shape. Qed.

(** A string the pattern accepts is not empty. *)
Lemma regex_truthy s : regex_test dateRegex s = true -> truthy s = true.
Proof. destruct s; [discriminate | reflexivity]. Qed.

Lemma getValidDate_cases `{DateParser} now dateInput :
  getValidDate now dateInput
  = if accepted dateInput then default "" dateInput else today now.
Proof.
  unfold getValidDate, accepted, today. destruct dateInput as [s|]; [|reflexivity].
  destruct (regex_test dateRegex s) eqn:Hre; cbn [andb].
  - rewrite (regex_truthy s Hre). destruct (Date_parse s) eqn:Hp.
    + rewrite bool_decide_eq_true_2 by eauto. reflexivity.
    + rewrite bool_decide_eq_false_2 by (intros [? ?]; discriminate). reflexivity.
  - destruct (truthy s); reflexivity.
Qed.

End IndexProperties.


Section ToolProperties.
Import Js Index.
Context `{Network} `{DateParser}.

(** Sending a request to Reflect always returns a result, after exactly
    one outbound request. *)
Lemma call_reflect_returns (r : FetchRequest) (log : list FetchRequest) :
  exists result, call_reflect r log = (Normal result, (log ++ [r])%list).
Proof.
  unfold call_reflect, try_catch, bind, fetch, lift, ret, throw.
  destruct (network r) as [response|e]; [|eauto].
  destruct (resp_ok response); cbn [negb]; [|eauto].
  destruct (resp_json response); eauto.
Qed.

Lemma not_authenticated_stringify : stringify not_authenticated = not_authenticated_text.
Proof. reflexivity. Qed.

Lemma no_token_cases props :
  no_token props ->
  props_accessToken props = None
  \/ exists tok, props_accessToken props = Some tok /\ truthy tok = false.
Proof.
  unfold no_token, truthy_opt. destruct (props_accessToken props) as [tok|]; eauto.
Qed.

(** C10: without an access token, both tools (in each revision of
    index.ts) return the one text item holding the JSON object
    [{error: Not authenticated. Please complete OAuth flow first.}] and
    send nothing; and whatever the token and the network do, a tool call
    completes normally with a result, it never throws. *)
Theorem tools_without_token_answer_not_authenticated
    (props : option Props) (now : Z) (content_arg graph_id : string)
    (content_opt : option string) (tasks : option (list string))
    (date : option string) (log : list FetchRequest) :
  no_token props ->
  let answer := (Normal (mkResult [mkItem "text" not_authenticated_text]), log) in
  (get_reflect_graphs props log = answer
   /\ append_to_reflect_daily_notes_v1 props content_arg graph_id log = answer
   /\ append_to_reflect_daily_notes_v2 now props content_arg graph_id date log = answer
   /\ append_to_reflect_daily_notes_v3 now props content_opt tasks graph_id date log = answer)
  /\ (forall props',
        (exists r l, get_reflect_graphs props' log = (Normal r, l))
        /\ (exists r l, append_to_reflect_daily_notes_v1 props' content_arg graph_id log
                        = (Normal r, l))
        /\ (exists r l, append_to_reflect_daily_notes_v2 now props' content_arg graph_id
                          date log = (Normal r, l))
        /\ (exists r l, append_to_reflect_daily_notes_v3 now props' content_opt tasks
                          graph_id date log = (Normal r, l))).
Proof.
  intros Hno answer. split.
  - unfold get_reflect_graphs, append_to_reflect_daily_notes_v1,
      append_to_reflect_daily_notes_v2, append_to_reflect_daily_notes_v3.
    destruct (no_token_cases props Hno) as [-> | (tok & -> & ->)];
      repeat split; reflexivity.
  - intros props'.
    unfold get_reflect_graphs, append_to_reflect_daily_notes_v1,
      append_to_reflect_daily_notes_v2, append_to_reflect_daily_notes_v3.
    destruct (props_accessToken props') as [tok|]; [|repeat split; eexists _, _; reflexivity].
    destruct (truthy tok); [|repeat split; eexists _, _; reflexivity].
    repeat split;
      try (match goal with
           | |- exists r l, call_reflect ?q ?lg = _ =>
               destruct (call_reflect_returns q lg) as [res Hres]; eauto
           end).
    destruct (negb (truthy (textToAppend content_opt tasks))).
    + eexists _, _; reflexivity.
    + destruct (call_reflect_returns
                  (daily_notes_request tok graph_id
                     (tasks_body (getValidDate now date) (textToAppend content_opt tasks)))
                  log) as [res Hres]; eauto.
Qed.

End ToolProperties.

Lemma tools_without_token_witness :
  Index.no_token None
  /\ fst (@Index.get_reflect_graphs Fixtures.upstream_grants None [])
     = Js.Normal (Index.mkResult [Index.mkItem "text" Index.not_authenticated_text])
  /\ snd (@Index.append_to_reflect_daily_notes_v2 Fixtures.upstream_grants
            Js.Date_parse_v8 1764460800000 None "note" "g1" (Some "2025-11-30") [])
     = [].
Proof.
  split; [reflexivity|].
  destruct (@tools_without_token_answer_not_authenticated
              Fixtures.upstream_grants Js.Date_parse_v8 None 1764460800000
              "note" "g1" None None (Some "2025-11-30") [] eq_refl)
    as [(Hg & _ & H2 & _) _].
  split; [rewrite Hg | rewrite H2]; reflexivity.
Defined.

Section DateProperties.
Import Js Index Observations.

(** C9 fails on the engine of the worker. The thirtieth of February has
    the shape YYYY-MM-DD and is no calendar date (February 2025 has 28
    days), yet V8 parses it, to the second of March, so [getValidDate]
    returns it as given instead of today's date and the tool sends it as
    the date of the note. *)
Theorem getValidDate_returns_february_30 :
  regex_test dateRegex "2025-02-30" = true
  /\ MakeDay 2025 3 1 - MakeDay 2025 2 1 = 28
  /\ Date_parse_v8 "2025-02-30" = Some 1740873600000
  /\ date_part 1740873600000 = "2025-03-02"
  /\ today 1764460800000 = "2025-11-30"
  /\ @getValidDate Date_parse_v8 1764460800000 (Some "2025-02-30") = "2025-02-30"
  /\ snd (@append_to_reflect_daily_notes_v2 Fixtures.upstream_grants Date_parse_v8
            1764460800000 (Some (mkProps "id-1" "at-1")) "note" "g1"
            (Some "2025-02-30") [])
     = [daily_notes_request "at-1" "g1" (dated_body "2025-02-30" "note")].
Proof. repeat split; vm_compute; reflexivity. Qed.

(** A text the pattern of a list of classes accepts has as many characters
    as the pattern has classes. *)
Lemma regex_test_length p s :
  regex_test p s = true -> String.length s = List.length p.
Proof.
  revert s. induction p as [|k p IH]; intros [|c s]; cbn [regex_test];
    try discriminate; [reflexivity|].
  intros Hm. apply andb_prop in Hm as [_ Hm]. cbn [String.length List.length].
  f_equal. apply IH, Hm.
Qed.

Lemma is_digit_decimal c : is_digit c = true <-> decimal_digit c.
Proof.
  unfold decimal_digit. split.
  - unfold is_digit. intros Hd. apply andb_prop in Hd as [Hlo Hhi].
    apply N.leb_le in Hlo, Hhi. rewrite <- (ascii_N_embedding c).
    assert (Hn : (N_of_ascii c = 48 \/ N_of_ascii c = 49 \/ N_of_ascii c = 50
                  \/ N_of_ascii c = 51 \/ N_of_ascii c = 52 \/ N_of_ascii c = 53
                  \/ N_of_ascii c = 54 \/ N_of_ascii c = 55 \/ N_of_ascii c = 56
                  \/ N_of_ascii c = 57)%N) by lia.
    repeat destruct Hn as [Hn|Hn]; rewrite Hn; cbn; tauto.
  - cbn. intros Hin. repeat destruct Hin as [<-|Hin]; try reflexivity. destruct Hin.
Qed.

Lemma digit_char_decimal x : decimal_digit (digit_char x).
Proof. apply is_digit_decimal, digit_char_is_digit. Qed.

(** The pattern of the code accepts exactly the texts of the shape
    YYYY-MM-DD. *)
Lemma regex_test_shape s : regex_test dateRegex s = true <-> iso_date_shape s.
Proof.
  unfold iso_date_shape, date_text. split.
  - intros Hre.
    pose proof (regex_test_length _ _ Hre) as Hlen.
    destruct s as [|y1 [|y2 [|y3 [|y4 [|h1 [|m1 [|m2 [|h2 [|d1 [|d2 [|x s]]]]]]]]]]];
      try discriminate Hlen.
    clear Hlen. cbn [regex_test dateRegex class_matches] in Hre.
    repeat (apply andb_prop in Hre as [?Hc Hre]).
    match goal with H : Ascii.eqb h1 _ = true |- _ => apply Ascii.eqb_eq in H as -> end.
    match goal with H : Ascii.eqb h2 _ = true |- _ => apply Ascii.eqb_eq in H as -> end.
    exists y1, y2, y3, y4, m1, m2, d1, d2. split; [reflexivity|].
    repeat (apply List.Forall_cons; [apply is_digit_decimal; assumption|]).
    apply List.Forall_nil.
  - intros (y1 & y2 & y3 & y4 & m1 & m2 & d1 & d2 & -> & Hall).
    repeat match goal with
           | H : Forall _ (_ :: _) |- _ => apply Forall_cons in H as [?Hd H]
           end.
    cbn [regex_test dateRegex class_matches].
    repeat match goal with
           | H : decimal_digit _ |- _ => apply is_digit_decimal in H; rewrite H; clear H
           end.
    reflexivity.
Qed.

(** On V8 the inputs [getValidDate] accepts are those of the shape
    YYYY-MM-DD with a month in 01..12 and a day in 01..31. *)
Lemma accepted_v8 s : @accepted Date_parse_v8 (Some s) = true <-> v8_accepts s.
Proof.
  unfold accepted, v8_accepts. split.
  - intros Hacc. apply andb_prop in Hacc as [Hre Hp].
    apply regex_test_shape in Hre
      as (y1 & y2 & y3 & y4 & m1 & m2 & d1 & d2 & -> & Hall).
    exists y1, y2, y3, y4, m1, m2, d1, d2. split; [reflexivity|]. split; [exact Hall|].
    apply bool_decide_eq_true_1 in Hp. destruct Hp as [t Hp].
    unfold Date_parse, Date_parse_v8, date_text in Hp.
    destruct (forallb is_digit [y1; y2; y3; y4; m1; m2; d1; d2] && Ascii.eqb "-" "-"
              && Ascii.eqb "-" "-"); [|discriminate].
    destruct ((1 <=? 10 * digit_value m1 + digit_value m2)
              && (10 * digit_value m1 + digit_value m2 <=? 12)
              && (1 <=? 10 * digit_value d1 + digit_value d2)
              && (10 * digit_value d1 + digit_value d2 <=? 31)) eqn:Hr; [|discriminate].
    repeat (apply andb_prop in Hr as [Hr ?Hb]).
    rewrite ?Z.leb_le in *. lia.
  - intros (y1 & y2 & y3 & y4 & m1 & m2 & d1 & d2 & -> & Hall & Hm & Hd).
    rewrite (proj2 (regex_test_shape _)) by (unfold iso_date_shape; eauto 12).
    cbn [andb]. apply bool_decide_eq_true_2.
    unfold Date_parse, Date_parse_v8, date_text.
    repeat match goal with
           | H : Forall _ (_ :: _) |- _ => apply Forall_cons in H as [?Hd H]
           end.
    cbn [forallb].
    repeat match goal with
           | H : decimal_digit _ |- _ => apply is_digit_decimal in H; rewrite H; clear H
           end.
    cbn [andb Ascii.eqb Bool.eqb].
    destruct (Z.leb_spec 1 (10 * digit_value m1 + digit_value m2)); [|lia].
    destruct (Z.leb_spec (10 * digit_value m1 + digit_value m2) 12); [|lia].
    destruct (Z.leb_spec 1 (10 * digit_value d1 + digit_value d2)); [|lia].
    destruct (Z.leb_spec (10 * digit_value d1 + digit_value d2) 31); [|lia].
    cbn [andb]. eauto.
Qed.

Lemma today_iso_shape now : four_digit_year now -> iso_date_shape (today now).
Proof.
  intros Hnow. rewrite today_date_part by exact Hnow.
  unfold date_part, iso_date_shape, date_text. cbv [pad String.append].
  do 8 eexists. split; [reflexivity|].
  repeat (apply List.Forall_cons; [apply digit_char_decimal|]). apply List.Forall_nil.
Qed.

Context `{Network}.


End DateProperties.


(** ** The CSRF Guard (4.2) *)
Section CSRFProperties.
Import Js Http Worker OAuthUtilsSpec OAuthUtilsSpec.CSRFGuard.

Lemma diff_acc_mono a b acc : acc <> 0%N -> diff_acc a b acc <> 0%N.
Proof.
  revert b acc. induction a as [|x a IH]; intros [|y b] acc Hacc; cbn [diff_acc]; auto.
  apply IH. intros Hz. apply N.lor_eq_0_iff in Hz as [Hz _]. contradiction.
Qed.

Lemma diff_acc_zero a b :
  String.length a = String.length b -> diff_acc a b 0 = 0%N -> a = b.
Proof.
  revert b. induction a as [|x a IH]; intros [|y b] Hlen Hd; try discriminate; auto.
  cbn [diff_acc] in Hd. rewrite N.lor_0_l in Hd.
  destruct (N.eq_dec (N.lxor (N_of_ascii x) (N_of_ascii y)) 0%N) as [Hxy|Hxy].
  - rewrite Hxy in Hd. apply N.lxor_eq in Hxy.
    assert (x = y) as ->
      by (rewrite <- (ascii_N_embedding x), <- (ascii_N_embedding y), Hxy; reflexivity).
    f_equal. apply IH; [now injection Hlen | exact Hd].
  - exfalso. revert Hd. apply diff_acc_mono. exact Hxy.
Qed.

Lemma diff_acc_refl a : diff_acc a a 0 = 0%N.
Proof.
  induction a as [|x a IH]; [reflexivity|].
  cbn [diff_acc]. rewrite N.lxor_nilpotent. exact IH.
Qed.

(** The constant-time comparison decides equality of the two strings. *)
Lemma timingSafeEqual_spec a b : timingSafeEqual a b = true <-> a = b.
Proof.
  unfold timingSafeEqual. split.
  - intros Ht. apply andb_prop in Ht as [Hlen Hd].
    apply Nat.eqb_eq in Hlen. apply N.eqb_eq in Hd. now apply diff_acc_zero.
  - intros ->. rewrite Nat.eqb_refl, diff_acc_refl. reflexivity.
Qed.

(** C5: CSRF validation fails with CSRFMismatch whenever the CSRF cookie
    is absent, whatever token is submitted; it fails whenever the
    submitted token and the cookie value are different strings; it
    succeeds exactly when both are present and equal; and its only failure
    is CSRFMismatch. *)
Theorem csrf_validate_fails_closed
    (submittedToken : option string) (cookies : gmap string string) :
  (cookies !! cookieName = None -> validate submittedToken cookies = Throw mismatch)
  /\ (forall token cookieValue,
        submittedToken = Some token -> cookies !! cookieName = Some cookieValue ->
        token <> cookieValue -> validate submittedToken cookies = Throw mismatch)
  /\ (validate submittedToken cookies = Normal tt
      <-> exists token, submittedToken = Some token /\ cookies !! cookieName = Some token)
  /\ (forall e, validate submittedToken cookies = Throw e ->
                exists o, e = OAuthErr o /\ oe_kind o = CSRFMismatch).
Proof.
  unfold validate. repeat split.
  - intros ->. reflexivity.
  - intros token cookieValue -> -> Hne.
    destruct (timingSafeEqual token cookieValue) eqn:Ht; [|reflexivity].
    apply timingSafeEqual_spec in Ht. contradiction.
  - destruct (cookies !! cookieName) as [c|]; [|discriminate].
    destruct submittedToken as [t|]; [|discriminate].
    destruct (timingSafeEqual t c) eqn:Ht; [|discriminate].
    apply timingSafeEqual_spec in Ht as ->. eauto.
  - intros (token & -> & ->).
    rewrite (proj2 (timingSafeEqual_spec token token) eq_refl). reflexivity.
  - intros e. destruct (cookies !! cookieName) as [c|];
      [destruct submittedToken as [t|]; [destruct (timingSafeEqual t c)|]|];
      intros He; inversion He; eexists; split; reflexivity.
Qed.

End CSRFProperties.

(** ** The State Store (4.4) and the Callback Validator (4.6) *)
Section StateProperties.
Import Js Http Worker OAuthUtilsSpec.
Context `{CookieCipher}.

Lemma live_insert token pending w :
  StateStore.live
    (set_kv (insert token (mkEntry pending (now w + StateStore.ttl))) w) token
  = Some pending.
Proof.
  unfold StateStore.live, set_kv. cbn [kv now].
  rewrite lookup_insert_eq. cbn [kv_expires kv_value].
  destruct (Z.ltb_spec (now w) (now w + StateStore.ttl)) as [_|Hge]; [reflexivity|].
  unfold StateStore.ttl in Hge. lia.
Qed.

Lemma live_delete token w : StateStore.live (set_kv (delete token) w) token = None.
Proof. unfold StateStore.live, set_kv. cbn [kv]. now rewrite lookup_delete_eq. Qed.

(** The request a browser sends once it holds the binding cookie. *)
Lemma read_after_bind key token request :
  SessionBinder.readBoundToken
    (req_cookies (revisit (SessionBinder.bind key token) request)) key
  = Normal token.
Proof.
  unfold SessionBinder.readBoundToken, revisit, with_cookies, browser_store.
  cbn [req_cookies SessionBinder.bind sc_max_age sc_name sc_value].
  change (600 <=? 0) with false. cbn iota.
  rewrite lookup_insert_eq, open_seal. reflexivity.
Qed.

(** C3: creating a state entry for a pending request and consuming the
    returned token at once yields that request unchanged, and a second
    consume of the same token fails with UnknownOrExpiredState. The same
    holds through the validator for the browser that holds the binding
    cookie of that token: the first validation returns the request, the
    second fails with an error of kind UnknownOrExpiredState. *)
Theorem create_then_consume_once
    (pendingRequest : AuthRequest) (w : World) (key : string) (request : Request) :
  exists token w1 w2,
    StateStore.create (E := Exn) pendingRequest w = (Normal token, w1)
    /\ StateStore.consume token w1 = (Normal pendingRequest, w2)
    /\ StateStore.consume token w2 = (Throw UnknownOrExpiredState, w2)
    /\ let bound := revisit (SessionBinder.bind key token) request in
       CallbackValidator.validate key bound w1
       = (Normal (pendingRequest, SessionBinder.unbind), w2)
       /\ CallbackValidator.validate key bound w2
          = (Throw (CallbackValidator.failure UnknownOrExpiredState
                      "unknown or expired state"), w2).
Proof.
  set (w0 := set_cursor (S (cursor w)) w).
  set (token := entropy w (cursor w)).
  set (w1 := set_kv (insert token (mkEntry pendingRequest (now w0 + StateStore.ttl))) w0).
  exists token, w1, (set_kv (delete token) w1).
  assert (Hc1 : StateStore.consume token w1
                = (Normal pendingRequest, set_kv (delete token) w1)).
  { unfold StateStore.consume. subst w1. now rewrite live_insert. }
  assert (Hc2 : StateStore.consume token (set_kv (delete token) w1)
                = (Throw UnknownOrExpiredState, set_kv (delete token) w1)).
  { unfold StateStore.consume. now rewrite live_delete. }
  split; [reflexivity|]. split; [exact Hc1|]. split; [exact Hc2|].
  cbv zeta. unfold CallbackValidator.validate.
  rewrite read_after_bind, Hc1, Hc2. split; reflexivity.
Qed.

End StateProperties.


(** ** The Approved-Client Ledger (4.3) *)
Section LedgerProperties.
Import Js Http Worker OAuthUtilsSpec OAuthUtilsSpec.Ledger.
Context `{CookieCipher} `{LedgerCodec}.

Lemma insert_client_member clientId ids : clientId ∈ insert_client clientId ids.
Proof.
  unfold insert_client. case_bool_decide; [assumption|].
  apply elem_of_app. right. apply list_elem_of_singleton. reflexivity.
Qed.

(** Adding a client never removes another. *)
Lemma insert_client_keeps clientId other ids :
  other ∈ ids -> other ∈ insert_client clientId ids.
Proof.
  intros Hin. unfold insert_client. case_bool_decide; [assumption|].
  apply elem_of_app. left. assumption.
Qed.

(** The ledger read back by the browser that stored the returned cookie. *)
Lemma read_after_add request clientId key :
  read (revisit (addApprovedClient request clientId key) request) key
  = Some (insert_client clientId (default [] (read request key))).
Proof.
  unfold read at 1, revisit, with_cookies, browser_store, addApprovedClient.
  cbn [req_cookies sc_max_age sc_name sc_value].
  change (31536000 <=? 0) with false. cbn iota.
  rewrite lookup_insert_eq, open_seal, decode_encode. reflexivity.
Qed.

(** C7: starting from any request (with no ledger cookie, a valid one or
    a corrupt one), adding client abc and then client xyz, the browser
    storing each returned cookie, leaves both approved: [isApproved]
    returns true for each. And a request whose ledger cookie is corrupt or
    does not decrypt is answered false, by [isApproved] and by the imported
    [isClientApproved], which completes normally. *)
Theorem ledger_keeps_both_and_rejects_corrupt (key : string) (render : Request -> ApprovalDialogOptions -> Response) :
  (forall request,
     let request1 := revisit (addApprovedClient request "abc" key) request in
     let request2 := revisit (addApprovedClient request1 "xyz" key) request1 in
     isApproved request2 "abc" key = true /\ isApproved request2 "xyz" key = true)
  /\ (forall request clientId value,
        req_cookies request !! cookieName = Some value -> corrupt value key ->
        isApproved request clientId key = false
        /\ @isClientApproved (Model key render) request clientId key = Normal false).
Proof.
  split.
  - intros request request1 request2. unfold isApproved.
    subst request2. rewrite read_after_add. subst request1. rewrite read_after_add.
    cbn [default]. split; apply bool_decide_eq_true_2.
    + apply insert_client_keeps, insert_client_member.
    + apply insert_client_member.
  - intros request clientId value Hcookie Hcorrupt.
    assert (Hread : read request key = None).
    { unfold read. rewrite Hcookie. unfold corrupt in Hcorrupt.
      destruct (open value key); [exact Hcorrupt | reflexivity]. }
    cbn [isClientApproved Model]. unfold isApproved. rewrite Hread. split; reflexivity.
Qed.

End LedgerProperties.

Lemma ledger_witness :
  let request :=
    OAuthUtilsSpec.with_cookies {[OAuthUtilsSpec.Ledger.cookieName := "garbage"]}
      Fixtures.bare_request in
  @OAuthUtilsSpec.Ledger.corrupt Fixtures.PrefixCipher Fixtures.DotCodec "garbage" "k3y"
  /\ @OAuthUtilsSpec.Ledger.isApproved Fixtures.PrefixCipher Fixtures.DotCodec
       request "abc" "k3y" = false
  /\ @OAuthUtilsSpec.Ledger.isApproved Fixtures.PrefixCipher Fixtures.DotCodec
       (OAuthUtilsSpec.revisit
          (@OAuthUtilsSpec.Ledger.addApprovedClient Fixtures.PrefixCipher Fixtures.DotCodec
             (OAuthUtilsSpec.revisit
                (@OAuthUtilsSpec.Ledger.addApprovedClient Fixtures.PrefixCipher
                   Fixtures.DotCodec request "abc" "k3y") request) "xyz" "k3y")
          (OAuthUtilsSpec.revisit
             (@OAuthUtilsSpec.Ledger.addApprovedClient Fixtures.PrefixCipher
                Fixtures.DotCodec request "abc" "k3y") request))
       "abc" "k3y" = true.
Proof.
  intros request.
  destruct (@ledger_keeps_both_and_rejects_corrupt Fixtures.PrefixCipher Fixtures.DotCodec
              "k3y" Fixtures.demo_render) as [Hboth Hcorrupt].
  split; [exact I|]. split.
  - apply (Hcorrupt request "abc" "garbage"); [reflexivity | exact I].
  - apply (Hboth request).
Defined.

(** ** reflect-handler.ts: the routes *)
Section RouteProperties.
Import Js Http Worker ReflectHandler.
Context `{OAuthHelpers} `{Runtime} `{Network}.
Variable U : OAuthUtils.
Variable env : Env.

Local Ltac run :=
  unfold bind, ret, throw, try_catch, lift, lift_js, console_log, modify, fetch.

(** The headers of the final redirect. *)
Lemma callback_redirect_headers redirectTo clear :
  headers (callback_redirect redirectTo clear)
  = if truthy clear then [("location", redirectTo); ("set-cookie", clear)]
    else [("location", redirectTo)].
Proof. unfold callback_redirect. destruct (truthy clear); reflexivity. Qed.

Lemma callback_redirect_clears redirectTo clear :
  truthy clear = true ->
  header_values "Set-Cookie" (headers (callback_redirect redirectTo clear)) = [clear].
Proof. intros Ht. rewrite callback_redirect_headers, Ht. reflexivity. Qed.

Lemma text_no_cookie t st : has_header "Set-Cookie" (headers (text t st)) = false.
Proof. reflexivity. Qed.

(** C4: the outcome of the approved-client check does not alter what the
    authorize routes do. Two runs of GET /authorize, and of POST
    /authorize, that differ only in the answer of the check give the same
    response and leave the same world. Whatever the answer, GET (for a
    request with a client identifier) issues the CSRF protection and
    renders the dialog with it, and POST (for a valid submission) creates
    the OAuth state, binds it to the session and redirects with the
    binding cookie and the state token. *)
Theorem approval_does_not_alter_security_steps (c : Request) (w : World) (b1 b2 : bool) :
  @authorize_get _ (with_approval b1 U) env c w
  = @authorize_get _ (with_approval b2 U) env c w
  /\ @authorize_post _ (with_approval b1 U) env c w
     = @authorize_post _ (with_approval b2 U) env c w
  /\ (forall info,
        parseAuthRequest c = Normal info -> truthy (clientId info) = true ->
        @authorize_get _ (with_approval b1 U) env c w
        = bind (@generateCSRFProtection U)
            (fun csrf =>
               bind (lift (lookupClient (clientId info)))
                 (fun client =>
                    ret (@renderApprovalDialog U c
                           (mkDialog client (fst csrf)
                              "This MCP Server is For Reflect OAuth." "Reflect MCP Server"
                              (snd csrf) (mkConsent (Some info)))))) w)
  /\ (forall formData encodedState info approvedClientCookie stateToken w1 sessionCookie w2,
        req_form c = Normal formData ->
        @validateCSRFToken U formData c = Normal tt ->
        assoc "state" formData = Some (FString encodedState) ->
        truthy encodedState = true ->
        parse_state encodedState = Normal (Some (mkConsent (Some info))) ->
        truthy (clientId info) = true ->
        @addApprovedClient U c (clientId info) (COOKIE_ENCRYPTION_KEY env)
        = Normal approvedClientCookie ->
        @createOAuthState U info w = (Normal stateToken, w1) ->
        @bindStateToSession U stateToken w1 = (Normal sessionCookie, w2) ->
        @authorize_post _ (with_approval b1 U) env c w
        = (Normal (redirectToReflect env c stateToken [("set-cookie", sessionCookie)]), w2)).
Proof.
  split; [|split; [reflexivity|split]].
  - unfold authorize_get. run. cbn [isClientApproved with_approval].
    destruct (parseAuthRequest c) as [info|e]; [|reflexivity].
    destruct (negb (truthy (clientId info))); [reflexivity|].
    destruct b1, b2; reflexivity.
  - intros info Hparse Hclient. unfold authorize_get. run.
    cbn [isClientApproved generateCSRFProtection renderApprovalDialog with_approval].
    rewrite Hparse, Hclient. cbn [negb]. destruct b1; reflexivity.
  - intros formData encodedState info approvedClientCookie stateToken w1 sessionCookie w2
      Hform Hcsrf Hstate Henc Hparse Hclient Hadd Hcreate Hbind.
    unfold authorize_post, authorize_post_try. run.
    cbn [validateCSRFToken addApprovedClient createOAuthState bindStateToSession
         with_approval].
    rewrite Hform, Hcsrf, Hstate, Henc. cbn [negb]. rewrite Hparse. cbn [oauthReqInfo].
    rewrite Hclient. cbn [negb]. rewrite Hadd, Hcreate, Hbind. reflexivity.
Qed.

End RouteProperties.

Section CallbackProperties.
Import Js Http Worker ReflectHandler.
Context `{OAuthHelpers} `{Runtime} `{Network} `{OAuthUtils}.
Variable env : Env.

Local Ltac run :=
  unfold bind, ret, throw, try_catch, lift, lift_js, console_log, modify, fetch.

(** Every response of the exchange after validation is a plain-text error
    of the route or the final redirect. *)
Lemma callback_exchange_kinds c info clear w r w' :
  callback_exchange env c info clear w = (Normal r, w') ->
  route_error r \/ exists redirectTo, r = callback_redirect redirectTo clear.
Proof.
  unfold callback_exchange, route_error. run.
  destruct (negb (truthy (clientId info))); [intros [= <- <-]; left; eauto|].
  destruct (assoc "code" (req_query c)) as [code|]; [|intros [= <- <-]; left; eauto].
  destruct (negb (truthy code)); [intros [= <- <-]; left; eauto|].
  destruct (network (token_request env c code)) as [response|e]; [|discriminate].
  destruct (negb (resp_ok response)); [intros [= <- <-]; left; eauto|].
  destruct (resp_json response) as [data|e]; [|discriminate].
  destruct (member data "access_token") as [accessToken|e]; [|discriminate].
  destruct (member data "access_token_id") as [accessTokenId|e]; [|discriminate].
  destruct (negb (json_truthy accessToken)); [intros [= <- <-]; left; eauto|].
  destruct (completeAuthorization _) as [redirectTo|e]; [|discriminate].
  intros [= <- <-]. right. eauto.
Qed.

(** Every response of the callback is the response of the [OAuthError]
    validation threw, a plain-text error of the route, or the redirect. *)
Lemma callback_response_kinds c w r w' :
  oauth_callback env c w = (Normal r, w') ->
  (exists e w1, validateOAuthState c w = (Throw (OAuthErr e), w1) /\ r = toResponse e)
  \/ route_error r
  \/ (exists info clear w1 redirectTo,
        validateOAuthState c w = (Normal (info, clear), w1)
        /\ r = callback_redirect redirectTo clear).
Proof.
  unfold oauth_callback. run.
  destruct (validateOAuthState c w) as [[[info clear]|[e|e]] w1] eqn:Hv.
  - intros Hex. apply callback_exchange_kinds in Hex as [Herr | [redirectTo ->]].
    + right; left; exact Herr.
    + right; right. exists info, clear, w1, redirectTo. split; reflexivity.
  - intros [= <- <-]. left. exists e, w1. split; reflexivity.
  - intros [= <- <-]. right; left. unfold route_error. eauto.
Qed.

(** The exchange on its success path. *)
Lemma callback_exchange_success c info clear w code response data
    accessToken accessTokenId redirectTo :
  truthy (clientId info) = true ->
  assoc "code" (req_query c) = Some code -> truthy code = true ->
  network (token_request env c code) = Normal response -> resp_ok response = true ->
  resp_json response = Normal data ->
  member data "access_token" = Normal accessToken ->
  member data "access_token_id" = Normal accessTokenId ->
  json_truthy accessToken = true ->
  completeAuthorization
    (mkComplete accessTokenId accessToken accessTokenId info (scope info) accessTokenId)
  = Normal redirectTo ->
  exists w', callback_exchange env c info clear w
             = (Normal (callback_redirect redirectTo clear), w').
Proof.
  intros Hclient Hcode Htruthy Hnet Hok Hjson Htok Hid Hacc Hcomplete.
  unfold callback_exchange. run.
  rewrite Hclient, Hcode, Htruthy. cbn [negb]. rewrite Hnet, Hok. cbn [negb].
  rewrite Hjson, Htok, Hid, Hacc. cbn [negb]. rewrite Hcomplete. eauto.
Qed.

(** C1, as amended: the final redirect of the callback (the success path)
    carries the Set-Cookie header that clears the session-binding cookie,
    namely the clear-cookie header validation returned, whenever that
    header is not empty. A validation that fails with an [OAuthError] is
    answered with that error's own response; a validation that fails with
    any other error is answered with the plain text Internal server error
    and status 500, which carries no Set-Cookie header. *)
Theorem callback_clears_binding_on_success (c : Request) (w : World) :
  (forall info clear w1 code response data accessToken accessTokenId redirectTo,
     validateOAuthState c w = (Normal (info, clear), w1) ->
     truthy (clientId info) = true ->
     assoc "code" (req_query c) = Some code -> truthy code = true ->
     network (token_request env c code) = Normal response -> resp_ok response = true ->
     resp_json response = Normal data ->
     member data "access_token" = Normal accessToken ->
     member data "access_token_id" = Normal accessTokenId ->
     json_truthy accessToken = true ->
     completeAuthorization
       (mkComplete accessTokenId accessToken accessTokenId info (scope info) accessTokenId)
     = Normal redirectTo ->
     truthy clear = true ->
     exists r w',
       oauth_callback env c w = (Normal r, w')
       /\ status r = 302
       /\ header_values "Location" (headers r) = [redirectTo]
       /\ header_values "Set-Cookie" (headers r) = [clear])
  /\ (forall e w1,
        validateOAuthState c w = (Throw (OAuthErr e), w1) ->
        oauth_callback env c w = (Normal (toResponse e), w1))
  /\ (forall e w1,
        validateOAuthState c w = (Throw (JsErr e), w1) ->
        oauth_callback env c w = (Normal (text "Internal server error" 500), w1)
        /\ has_header "Set-Cookie" (headers (text "Internal server error" 500)) = false).
Proof.
  split; [|split].
  - intros info clear w1 code response data accessToken accessTokenId redirectTo
      Hv Hclient Hcode Htruthy Hnet Hok Hjson Htok Hid Hacc Hcomplete Hclear.
    destruct (callback_exchange_success c info clear w1 code response data accessToken
                accessTokenId redirectTo Hclient Hcode Htruthy Hnet Hok Hjson Htok Hid
                Hacc Hcomplete) as [w' Hex].
    exists (callback_redirect redirectTo clear), w'.
    split; [unfold oauth_callback; run; rewrite Hv; exact Hex|].
    split; [reflexivity|].
    rewrite callback_redirect_headers, Hclear. split; reflexivity.
  - intros e w1 Hv. unfold oauth_callback. run. rewrite Hv. reflexivity.
  - intros e w1 Hv. unfold oauth_callback. run. rewrite Hv. split; reflexivity.
Qed.

(** After a successful validation the callback throws exactly when the
    token exchange breaks. *)
Lemma callback_exchange_throws c info clear w code e :
  truthy (clientId info) = true ->
  assoc "code" (req_query c) = Some code -> truthy code = true ->
  (exists w', callback_exchange env c info clear w = (Throw e, w'))
  <-> Observations.exchange_breaks env c info code e.
Proof.
  intros Hclient Hcode Htruthy. unfold Observations.exchange_breaks. split.
  - intros [w' Hex]. unfold callback_exchange in Hex. revert Hex. run.
    rewrite Hclient, Hcode, Htruthy. cbn [negb].
    destruct (network (token_request env c code)) as [response|e0] eqn:Hnet.
    2:{ intros [= <-]. left. exists e0. split; reflexivity. }
    destruct (resp_ok response) eqn:Hok; cbn [negb]; [|discriminate].
    intros Hex. right. exists response.
    split; [reflexivity|]. split; [exact Hok|]. revert Hex.
    destruct (resp_json response) as [data|e1] eqn:Hjson.
    2:{ intros [= <-]. left. exists e1. split; reflexivity. }
    intros Hex. right. exists data. split; [reflexivity|]. revert Hex.
    destruct (member data "access_token") as [accessToken|e2] eqn:Htok.
    2:{ intros [= <-]. left. exists e2. split; reflexivity. }
    destruct (member data "access_token_id") as [accessTokenId|e3] eqn:Hid.
    2:{ destruct data; discriminate. }
    destruct (json_truthy accessToken) eqn:Hacc; cbn [negb]; [|discriminate].
    destruct (completeAuthorization _) as [redirectTo|e4] eqn:Hcomplete; [discriminate|].
    intros [= <-]. right. exists accessToken, accessTokenId.
    split; [reflexivity|]. split; [reflexivity|]. split; [exact Hacc | exact Hcomplete].
  - intros Hbreak. unfold callback_exchange. run.
    rewrite Hclient, Hcode, Htruthy. cbn [negb].
    destruct Hbreak as [(e0 & -> & Hnet) | (response & Hnet & Hok & Hrest)];
      rewrite Hnet; [eauto|].
    rewrite Hok. cbn [negb].
    destruct Hrest as [(e0 & -> & Hjson) | (data & Hjson & Hrest)];
      rewrite Hjson; [eauto|].
    destruct Hrest as [(e0 & -> & Htok) | (accessToken & accessTokenId & Htok & Hid
                                           & Hacc & Hcomplete)].
    + rewrite Htok. eauto.
    + rewrite Htok, Hid, Hacc. cbn [negb]. rewrite Hcomplete. eauto.
Qed.


End CallbackProperties.

(** ** The routes run on concrete collaborators *)
Section RouteExamples.
Import Js Http Worker ReflectHandler OAuthUtilsSpec Fixtures.

(** C1 as stated fails. The browser holds the binding cookie of T1 and T1
    is stored, but the callback has no code: validation consumes T1 and
    the answer is Missing code, without any Set-Cookie header. And when the
    store is down during validation the answer is a bare 500. *)
Lemma callback_errors_leave_binding_cookie :
  let c := callback_request [("state", "T1")] "T1" in
  let run := @oauth_callback demo_helpers demo_runtime upstream_grants demo_utils
               demo_env c after_consent in
  StateStore.live after_consent "T1" = Some demo_request
  /\ fst run = Normal (text "Missing code" 400)
  /\ has_header "Set-Cookie" (headers (text "Missing code" 400)) = false
  /\ StateStore.live (snd run) "T1" = None
  /\ fst (@oauth_callback demo_helpers demo_runtime upstream_grants store_down_utils
            demo_env c after_consent)
     = Normal (text "Internal server error" 500)
  /\ has_header "Set-Cookie" (headers (text "Internal server error" 500)) = false.
Proof. repeat split; vm_compute; reflexivity. Qed.

Lemma callback_clears_binding_witness :
  let c := callback_request [("code", "xyz"); ("state", "T1")] "T1" in
  exists r w',
    @oauth_callback demo_helpers demo_runtime upstream_grants demo_utils demo_env c
      after_consent = (Normal r, w')
    /\ status r = 302
    /\ header_values "Location" (headers r) = ["https://client.example/callback?code=granted"]
    /\ header_values "Set-Cookie" (headers r) = [render_cookie SessionBinder.unbind].
Proof.
  intros c.
  destruct (@callback_clears_binding_on_success demo_helpers demo_runtime upstream_grants
              demo_utils demo_env c after_consent) as [Hsuccess _].
  eapply Hsuccess; try reflexivity.
Defined.



(** Two browsers, one whose ledger approves the demo client and one
    without a ledger, get the same answer from GET /authorize. *)
Lemma approval_witness :
  @Ledger.isApproved PrefixCipher DotCodec approved_browser "demo" "k3y" = true
  /\ @Ledger.isApproved PrefixCipher DotCodec bare_request "demo" "k3y" = false
  /\ fst (@authorize_get demo_helpers demo_utils demo_env approved_browser world0)
     = fst (@authorize_get demo_helpers demo_utils demo_env bare_request world0)
  /\ @authorize_get demo_helpers (with_approval true demo_utils) demo_env bare_request world0
     = @authorize_get demo_helpers (with_approval false demo_utils) demo_env bare_request
         world0.
Proof.
  split; [vm_compute; reflexivity|]. split; [vm_compute; reflexivity|].
  split; [vm_compute; reflexivity|].
  exact (proj1 (@approval_does_not_alter_security_steps demo_helpers demo_runtime
                  demo_utils demo_env bare_request world0 true false)).
Defined.

(** The redirect of POST /authorize carries one Set-Cookie header, the
    session binding: of the two headers appended under the same name,
    [Object.fromEntries] keeps the last. *)
Example authorize_post_sets_binding_cookie :
  fst (@authorize_post demo_runtime demo_utils demo_env consent_form world0)
  = Normal (mkResp 302
              [("set-cookie", render_cookie (@SessionBinder.bind PrefixCipher "k3y" "T1"));
               ("location", "https://reflect.app/oauth?client_id=reflect-client&state=T1")]
              None).
Proof. vm_compute. reflexivity. Qed.

(** The end-to-end scenario of the specification: consent, callback, and
    a replayed callback, which fails. *)
Example end_to_end :
  let c := callback_request [("code", "xyz"); ("state", "T1")] "T1" in
  let first := @oauth_callback demo_helpers demo_runtime upstream_grants demo_utils
                 demo_env c after_consent in
  (exists r, fst first = Normal r /\ status r = 302)
  /\ fst (@oauth_callback demo_helpers demo_runtime upstream_grants demo_utils demo_env c
            (snd first))
     = Normal (@toResponse demo_utils
                 (mkOAuthError UnknownOrExpiredState "unknown or expired state"
                    [("set-cookie", render_cookie SessionBinder.unbind)])).
Proof. split; [eexists; split|]; vm_compute; reflexivity. Qed.

End RouteExamples.

(** * Further properties of the sources *)

(** ** index.ts: what the tools send and answer *)
Section ToolBehaviour.
Import Js Index Observations.
Context `{Network} `{DateParser}.

(** The outcome of [call_reflect], by what the network does. *)
Lemma call_reflect_outcome (r : FetchRequest) (log : list FetchRequest) :
  fst (call_reflect r log)
  = Normal (text_result
              (match network r with
               | Throw e => error_text (String_of_error e)
               | Normal response =>
                   if resp_ok response then
                     match resp_json response with
                     | Normal data => stringify data
                     | Throw e => error_text (String_of_error e)
                     end
                   else error_text ("Error: HTTP error! status: "
                                    ++ Z_to_string (resp_status response))
               end)).
Proof.
  unfold call_reflect, try_catch, bind, fetch, lift, ret, throw.
  destruct (network r) as [response|e]; [|reflexivity].
  destruct (resp_ok response); cbn [negb]; [|reflexivity].
  destruct (resp_json response); reflexivity.
Qed.

(** X1: with an access token, [get_reflect_graphs] sends exactly one
    request, a GET of the graphs URL with the bearer token. When the
    exchange fails it answers with the text of an error object: the HTTP
    status when the status is not ok (the body is then not read), the
    thrown error when the request is rejected or the body of an ok
    response is not JSON. *)
Theorem get_reflect_graphs_with_token
    (props : option Props) (tok : string) (log : list FetchRequest) :
  props_accessToken props = Some tok -> truthy tok = true ->
  snd (get_reflect_graphs props log) = (log ++ [graphs_request tok])%list
  /\ (forall response,
        network (graphs_request tok) = Normal response -> resp_ok response = false ->
        fst (get_reflect_graphs props log)
        = Normal (text_result
                    (error_text ("Error: HTTP error! status: "
                                 ++ Z_to_string (resp_status response)))))
  /\ (forall e,
        network (graphs_request tok) = Throw e
        \/ (exists response,
              network (graphs_request tok) = Normal response
              /\ resp_ok response = true /\ resp_json response = Throw e) ->
        fst (get_reflect_graphs props log)
        = Normal (text_result (error_text (String_of_error e)))).
Proof.
  intros Hprops Htok. unfold get_reflect_graphs. rewrite Hprops, Htok.
  fold (graphs_request tok).
  split.
  { destruct (call_reflect_returns (graphs_request tok) log) as [res ->]. reflexivity. }
  rewrite call_reflect_outcome.
  split.
  - intros response -> ->. reflexivity.
  - intros e [-> | (response & -> & -> & ->)]; reflexivity.
Qed.

Lemma truthy_append_l a b : truthy a = true -> truthy (a ++ b) = true.
Proof. destruct a; [discriminate | reflexivity]. Qed.

(** The text of the third revision is empty exactly when there is neither
    content nor a task. *)
Lemma textToAppend_truthy content_arg tasks :
  truthy (textToAppend content_arg tasks) = truthy_opt content_arg || has_tasks tasks.
Proof.
  unfold textToAppend, has_tasks.
  destruct content_arg as [c|]; cbn [truthy_opt default].
  - destruct (truthy c) eqn:Hc; cbn [orb].
    + destruct tasks as [[|t ts]|]; cbn [join app]; try exact Hc.
      apply truthy_append_l, Hc.
    + destruct tasks as [[|t ts]|]; cbn [join app List.map]; try reflexivity.
      destruct ts; reflexivity.
  - destruct tasks as [[|t ts]|]; cbn [join app List.map orb]; try reflexivity.
    destruct ts; reflexivity.
Qed.

(** X2: the third revision of [append_to_reflect_daily_notes], called
    with an access token, sends its one PUT request exactly when there is
    a non-empty content or at least one task. With neither it answers the
    error object Either content or tasks must be provided. and sends
    nothing. *)
Theorem append_v3_needs_content_or_tasks
    (now : Z) (props : option Props) (tok : string) (content_arg : option string)
    (tasks : option (list string)) (graph_id : string) (date : option string)
    (log : list FetchRequest) :
  props_accessToken props = Some tok -> truthy tok = true ->
  let run := append_to_reflect_daily_notes_v3 now props content_arg tasks graph_id date log in
  (truthy_opt content_arg || has_tasks tasks = false ->
     run = (Normal (text_result (error_text "Either content or tasks must be provided.")),
            log))
  /\ (truthy_opt content_arg || has_tasks tasks = true ->
        snd run
        = (log ++ [daily_notes_request tok graph_id
                     (tasks_body (getValidDate now date)
                        (textToAppend content_arg tasks))])%list).
Proof.
  intros Hprops Htok run. subst run. unfold append_to_reflect_daily_notes_v3.
  rewrite Hprops, Htok, textToAppend_truthy. split; intros ->; cbn [negb].
  - reflexivity.
  - destruct (call_reflect_returns
                (daily_notes_request tok graph_id
                   (tasks_body (getValidDate now date) (textToAppend content_arg tasks)))
                log) as [res ->].
    reflexivity.
Qed.

(** How the third revision builds the text: the content alone, the
    tasks alone, or the content, a line feed, and the tasks; the tasks are
    one per line, each after a plus sign and a space. *)
Lemma textToAppend_layout (c : string) (t : string) (ts : list string) :
  truthy c = true ->
  let lines := join newline (List.map (fun task => "+ " ++ task) (t :: ts)) in
  textToAppend (Some c) None = c
  /\ textToAppend (Some c) (Some []) = c
  /\ textToAppend None (Some (t :: ts)) = lines
  /\ textToAppend (Some "") (Some (t :: ts)) = lines
  /\ textToAppend (Some c) (Some (t :: ts)) = c ++ newline ++ lines.
Proof.
  intros Hc lines. subst lines. unfold textToAppend. cbn [truthy_opt default].
  rewrite Hc. repeat split; reflexivity.
Qed.

(** X3: no tool, in any revision, hands more than one request to
    [fetch], and every request it hands over carries the bearer token
    taken from the props and is either the GET of
    https://reflect.app/api/graphs or the PUT of
    https://reflect.app/api/graphs/ followed by the graph identifier as
    given and /daily-notes; without a token nothing is sent. *)
Theorem tools_only_call_reflect_with_bearer
    (now : Z) (props : option Props) (content_arg graph_id : string)
    (content_opt : option string) (tasks : option (list string))
    (date : option string) (log : list FetchRequest) :
  let sent_ok (after : list FetchRequest) :=
    after = log
    \/ exists tok r,
         props_accessToken props = Some tok /\ truthy tok = true
         /\ after = (log ++ [r])%list /\ reflect_api_call tok graph_id r in
  sent_ok (snd (get_reflect_graphs props log))
  /\ sent_ok (snd (append_to_reflect_daily_notes_v1 props content_arg graph_id log))
  /\ sent_ok (snd (append_to_reflect_daily_notes_v2 now props content_arg graph_id date log))
  /\ sent_ok (snd (append_to_reflect_daily_notes_v3 now props content_opt tasks graph_id
                     date log)).
Proof.
  intros sent_ok. subst sent_ok. cbv beta.
  unfold get_reflect_graphs, append_to_reflect_daily_notes_v1,
    append_to_reflect_daily_notes_v2, append_to_reflect_daily_notes_v3.
  destruct (props_accessToken props) as [tok|]; [|repeat split; left; reflexivity].
  destruct (truthy tok) eqn:Htok; [|repeat split; left; reflexivity].
  assert (Hcall : forall r, reflect_api_call tok graph_id r ->
            snd (call_reflect r log) = log
            \/ exists tok' r', Some tok = Some tok' /\ truthy tok' = true
                 /\ snd (call_reflect r log) = (log ++ [r'])%list
                 /\ reflect_api_call tok' graph_id r').
  { intros r Hr. right. exists tok, r.
    destruct (call_reflect_returns r log) as [res ->].
    split; [reflexivity|]. split; [exact Htok|]. split; [reflexivity | exact Hr]. }
  cbv beta iota. split; [|split; [|split]].
  - apply Hcall. split; [reflexivity | left; split; reflexivity].
  - apply Hcall. split; [reflexivity | right; split; reflexivity].
  - apply Hcall. split; [reflexivity | right; split; reflexivity].
  - destruct (negb (truthy (textToAppend content_opt tasks))); [left; reflexivity|].
    apply Hcall. split; [reflexivity | right; split; reflexivity].
Qed.

End ToolBehaviour.

(** ** index.ts: [getValidDate] on the V8 engine *)
Section DateBehaviour.
Import Js Index.

Lemma digit_value_digit_char x : digit_value (digit_char x) = x mod 10.
Proof.
  unfold digit_value, digit_char.
  pose proof (Z.mod_pos_bound x 10 ltac:(lia)) as Hx.
  rewrite N_ascii_embedding by lia. lia.
Qed.

(** V8 parses the date part of every ISO string with a four-digit year. *)
Lemma Date_parse_v8_date_part now :
  four_digit_year now -> is_Some (Date_parse_v8 (date_part now)).
Proof.
  intros Hnow.
  pose proof (MonthFromDay_range (Day now)) as Hm.
  pose proof (DateFromDay_range (Day now)) as Hd.
  unfold date_part, MonthFromTime1, DateFromTime.
  set (m := MonthFromDay (Day now)) in *. set (d := DateFromDay (Day now)) in *.
  cbv [pad String.append]. unfold Date_parse_v8.
  cbn [forallb]. rewrite !digit_char_is_digit, !digit_value_digit_char.
  cbn [andb Ascii.eqb Bool.eqb].
  assert (Hm' : 10 * (m / 10 mod 10) + m mod 10 = m)
    by (Z.to_euclidean_division_equations; lia).
  assert (Hd' : 10 * (d / 10 mod 10) + d mod 10 = d)
    by (Z.to_euclidean_division_equations; lia).
  rewrite Hm', Hd'.
  destruct (Z.leb_spec 1 m); [|lia]. destruct (Z.leb_spec m 12); [|lia].
  destruct (Z.leb_spec 1 d); [|lia]. destruct (Z.leb_spec d 31); [|lia].
  cbn [andb]. eauto.
Qed.


(** X5: an input that is not exactly ten characters long is never
    returned: [getValidDate] answers with today's date, whatever the
    engine's parser would make of the input (a date with a time, a date
    without leading zeros, the empty string). *)
Theorem getValidDate_wrong_length_is_today `{DateParser} (now : Z) (s : string) :
  String.length s <> 10%nat -> getValidDate now (Some s) = today now.
Proof.
  intros Hlen. rewrite getValidDate_cases. unfold accepted.
  destruct (regex_test dateRegex s) eqn:Hre; [|reflexivity].
  apply regex_test_length in Hre. contradiction.
Qed.

End DateBehaviour.


Lemma getValidDate_wrong_length_witness :
  String.length "2025-11-30T10:00:00Z" <> 10%nat
  /\ @Index.getValidDate Js.Date_parse_v8 1764460800000 (Some "2025-11-30T10:00:00Z")
     = Index.today 1764460800000.
Proof.
  assert (Hlen : String.length "2025-11-30T10:00:00Z" <> 10%nat) by (cbn; lia).
  split; [exact Hlen|].
  exact (@getValidDate_wrong_length_is_today Js.Date_parse_v8 1764460800000
           "2025-11-30T10:00:00Z" Hlen).
Defined.

Lemma get_reflect_graphs_with_token_witness :
  snd (@Index.get_reflect_graphs Fixtures.upstream_refuses
         (Some (Index.mkProps "id-1" "at-1")) [])
  = [Observations.graphs_request "at-1"]
  /\ fst (@Index.get_reflect_graphs Fixtures.upstream_refuses
            (Some (Index.mkProps "id-1" "at-1")) [])
     = Js.Normal (Index.text_result
                    (Observations.error_text "Error: HTTP error! status: 401")).
Proof.
  destruct (@get_reflect_graphs_with_token Fixtures.upstream_refuses
              (Some (Index.mkProps "id-1" "at-1")) "at-1" [] eq_refl eq_refl)
    as (Hsent & Hrefused & _).
  split; [exact Hsent|].
  rewrite (Hrefused _ eq_refl eq_refl). reflexivity.
Defined.

Lemma append_v3_needs_content_witness :
  @Index.append_to_reflect_daily_notes_v3 Fixtures.upstream_grants Js.Date_parse_v8
    1764460800000 (Some (Index.mkProps "id-1" "at-1")) (Some "") (Some []) "g1" None []
  = (Js.Normal (Index.text_result
                  (Observations.error_text "Either content or tasks must be provided.")),
     []).
Proof.
  destruct (@append_v3_needs_content_or_tasks Fixtures.upstream_grants Js.Date_parse_v8
              1764460800000 (Some (Index.mkProps "id-1" "at-1")) "at-1" (Some "")
              (Some []) "g1" None [] eq_refl eq_refl) as [Hnone _].
  apply Hnone. reflexivity.
Defined.

(** ** reflect-handler.ts: further behaviour of the routes *)
Section RouteBehaviour.
Import Js Http Worker ReflectHandler Observations.
Context `{OAuthHelpers} `{Runtime} `{Network} `{OAuthUtils}.
Variable env : Env.

Local Ltac run :=
  unfold bind, ret, throw, try_catch, lift, lift_js, console_log, modify, fetch.

Lemma same_but_console_refl w : same_but_console w w.
Proof. repeat split. Qed.

Lemma same_but_console_log line w : same_but_console w (add_console line w).
Proof. repeat split. Qed.

(** X6: POST /authorize never throws: whatever the form, the imported
    functions and the store do, the route completes with a response. *)
Theorem authorize_post_never_throws (c : Request) (w : World) :
  exists r w', authorize_post env c w = (Normal r, w').
Proof.
  unfold authorize_post. run.
  destruct (authorize_post_try env c w) as [[r|e] w1]; [eauto|].
  destruct e; eauto.
Qed.

(** X7: POST /authorize changes nothing but the console unless the
    submission is valid: when the form cannot be read, the CSRF check
    fails, or the state field is missing or does not decode to a request
    with a client, the key-value store, the random source and the outbound
    requests are as before: no OAuth state is created. *)
Theorem authorize_post_touches_store_only_after_checks (c : Request) (w : World) :
  same_but_console w (snd (authorize_post env c w))
  \/ exists info, valid_submission c info.
Proof.
  unfold authorize_post, authorize_post_try, valid_submission. run.
  destruct (req_form c) as [formData|e] eqn:Hform;
    [|left; apply same_but_console_log].
  destruct (validateCSRFToken formData c) as [[]|e] eqn:Hcsrf;
    [|left; destruct e; apply same_but_console_log].
  destruct (assoc "state" formData) as [[encodedState|]|] eqn:Hstate;
    [|left; apply same_but_console_refl..].
  destruct (truthy encodedState) eqn:Henc; cbn [negb];
    [|left; apply same_but_console_refl].
  destruct (parse_state encodedState) as [[[[info|]]|]|e] eqn:Hparse;
    [|left; apply same_but_console_refl|left; apply same_but_console_log
     |left; apply same_but_console_refl].
  cbn [oauthReqInfo].
  destruct (truthy (clientId info)) eqn:Hclient; cbn [negb];
    [|left; apply same_but_console_refl].
  right. exists info, formData, encodedState. repeat split; assumption.
Qed.

(** X8: a consent state that decodes to JSON null is answered with status
    500, not 400: reading its [oauthReqInfo] throws inside the [try] block
    and the [catch] treats it as an unexpected error. Nothing but the
    console changes. *)
Theorem authorize_post_null_state_is_500
    (c : Request) (w : World) (formData : list (string * FormValue))
    (encodedState : string) :
  req_form c = Normal formData ->
  validateCSRFToken formData c = Normal tt ->
  assoc "state" formData = Some (FString encodedState) ->
  truthy encodedState = true ->
  parse_state encodedState = Normal None ->
  exists r w',
    authorize_post env c w = (Normal r, w')
    /\ status r = 500 /\ same_but_console w w'.
Proof.
  intros Hform Hcsrf Hstate Henc Hparse.
  unfold authorize_post, authorize_post_try. run.
  rewrite Hform, Hcsrf, Hstate, Henc. cbn [negb]. rewrite Hparse.
  eexists _, _. split; [reflexivity|]. split; [reflexivity|].
  apply same_but_console_log.
Qed.

(** X9: the redirect of a valid POST /authorize carries exactly one
    Set-Cookie header, the session-binding cookie. The approved-client
    cookie, appended first under the same name, does not reach the
    response: [Object.fromEntries] over the headers keeps the last entry
    of a name. *)
Theorem authorize_post_redirect_has_binding_cookie_only
    (c : Request) (w : World) (info : AuthRequest)
    (approvedClientCookie stateToken sessionCookie : string) (w1 w2 : World) :
  valid_submission c info ->
  addApprovedClient c (clientId info) (COOKIE_ENCRYPTION_KEY env)
  = Normal approvedClientCookie ->
  createOAuthState info w = (Normal stateToken, w1) ->
  bindStateToSession stateToken w1 = (Normal sessionCookie, w2) ->
  exists r,
    authorize_post env c w = (Normal r, w2)
    /\ status r = 302
    /\ header_values "Set-Cookie" (headers r) = [sessionCookie]
    /\ header_values "Location" (headers r)
       = [getUpstreamAuthorizeUrl
            (mkUpstream (REFLECT_CLIENT_ID env)
               (URL_href "/oauth/callback" (req_url c))
               "read:graph,write:graph" "https://reflect.app/oauth" "code" stateToken)].
Proof.
  intros (formData & encodedState & Hform & Hcsrf & Hstate & Henc & Hparse & Hclient)
    Hadd Hcreate Hbind.
  unfold authorize_post, authorize_post_try. run.
  rewrite Hform, Hcsrf, Hstate, Henc. cbn [negb]. rewrite Hparse. cbn [oauthReqInfo].
  rewrite Hclient. cbn [negb]. rewrite Hadd, Hcreate, Hbind.
  eexists. split; [reflexivity|]. repeat split; reflexivity.
Qed.

(** X10: the callback route itself calls [fetch] at most once, with the
    POST to the token endpoint that carries the code of the query, and
    only after state validation succeeded for a request with a client and
    a non-empty code is present. What the provider does inside
    [completeAuthorization] lies outside the route and is not counted. *)
Theorem callback_sends_token_request_at_most (c : Request) (w : World) :
  let w1 := snd (validateOAuthState c w) in
  let w' := snd (oauth_callback env c w) in
  sent w' = sent w1
  \/ exists info clear code,
       validateOAuthState c w = (Normal (info, clear), w1)
       /\ truthy (clientId info) = true
       /\ assoc "code" (req_query c) = Some code /\ truthy code = true
       /\ sent w' = (sent w1 ++ [token_request env c code])%list.
Proof.
  cbv zeta. unfold oauth_callback. run.
  destruct (validateOAuthState c w) as [[[info clear]|[e|e]] w1] eqn:Hv; cbn [snd];
    [|left; reflexivity..].
  unfold callback_exchange. run.
  destruct (truthy (clientId info)) eqn:Hclient; cbn [negb]; [|left; reflexivity].
  destruct (assoc "code" (req_query c)) as [code|] eqn:Hcode; [|left; reflexivity].
  destruct (truthy code) eqn:Htruthy; cbn [negb]; [|left; reflexivity].
  assert (Hsent : exists info0 clear0 code0,
            (@Normal Exn _ (info, clear), w1) = (Normal (info0, clear0), w1)
            /\ truthy (clientId info0) = true
            /\ Some code = Some code0 /\ truthy code0 = true
            /\ (sent w1 ++ [token_request env c code])%list
               = (sent w1 ++ [token_request env c code0])%list)
    by (exists info, clear, code; repeat split; assumption).
  destruct (network (token_request env c code)) as [response|e]; [|right; exact Hsent].
  destruct (resp_ok response); cbn [negb]; [|right; exact Hsent].
  destruct (resp_json response) as [data|e]; [|right; exact Hsent].
  destruct (member data "access_token") as [accessToken|e]; [|right; exact Hsent].
  destruct (member data "access_token_id") as [accessTokenId|e]; [|right; exact Hsent].
  destruct (json_truthy accessToken); cbn [negb]; [|right; exact Hsent].
  destruct (completeAuthorization _); right; exact Hsent.
Qed.

(** X11: after a successful validation the callback answers 302 only
    when the token endpoint granted a truthy access token, and the
    redirect target is then what [completeAuthorization] returned for the
    validated request, with that token as props and the token identifier
    as user. *)
Theorem callback_redirects_only_with_upstream_token
    (c : Request) (info : AuthRequest) (clear : string) (w w' : World) (r : Response) :
  callback_exchange env c info clear w = (Normal r, w') ->
  status r = 302 ->
  exists accessToken accessTokenId redirectTo,
    granted env c accessToken accessTokenId
    /\ truthy (clientId info) = true
    /\ completeAuthorization
         (mkComplete accessTokenId accessToken accessTokenId info (scope info)
            accessTokenId) = Normal redirectTo
    /\ r = callback_redirect redirectTo clear.
Proof.
  unfold callback_exchange, granted. run.
  destruct (truthy (clientId info)) eqn:Hclient; cbn [negb];
    [|intros [= <- <-]; discriminate].
  destruct (assoc "code" (req_query c)) as [code|] eqn:Hcode;
    [|intros [= <- <-]; discriminate].
  destruct (truthy code) eqn:Htruthy; cbn [negb]; [|intros [= <- <-]; discriminate].
  destruct (network (token_request env c code)) as [response|e] eqn:Hnet; [|discriminate].
  destruct (resp_ok response) eqn:Hok; cbn [negb]; [|intros [= <- <-]; discriminate].
  destruct (resp_json response) as [data|e] eqn:Hjson; [|discriminate].
  destruct (member data "access_token") as [accessToken|e] eqn:Htok; [|discriminate].
  destruct (member data "access_token_id") as [accessTokenId|e] eqn:Hid; [|discriminate].
  destruct (json_truthy accessToken) eqn:Hacc; cbn [negb];
    [|intros [= <- <-]; discriminate].
  destruct (completeAuthorization _) as [redirectTo|e] eqn:Hcomplete; [|discriminate].
  intros [= <- <-] _. exists accessToken, accessTokenId, redirectTo.
  split; [exists code, response, data; repeat split; assumption|].
  repeat split; assumption.
Qed.

(** X12: the callback does not catch a failed token exchange: when the
    request to the token endpoint is rejected, or its ok response has a
    body that is not JSON, the route throws that error, after validation
    has already run and the request was sent. *)
Theorem callback_throws_when_exchange_breaks
    (c : Request) (w w1 : World) (info : AuthRequest) (clear code : string) (e : JsError) :
  validateOAuthState c w = (Normal (info, clear), w1) ->
  truthy (clientId info) = true ->
  assoc "code" (req_query c) = Some code -> truthy code = true ->
  network (token_request env c code) = Throw e
  \/ (exists response,
        network (token_request env c code) = Normal response
        /\ resp_ok response = true /\ resp_json response = Throw e) ->
  exists w',
    oauth_callback env c w = (Throw (JsErr e), w')
    /\ kv w' = kv w1
    /\ sent w' = (sent w1 ++ [token_request env c code])%list.
Proof.
  intros Hv Hclient Hcode Htruthy Hbreak.
  unfold oauth_callback. run. rewrite Hv. unfold callback_exchange. run.
  rewrite Hclient, Hcode, Htruthy. cbn [negb].
  destruct Hbreak as [-> | (response & -> & -> & ->)]; cbn [negb];
    eexists; repeat split.
Qed.

End RouteBehaviour.

Section RouteWitnesses.
Import Js Http Worker ReflectHandler OAuthUtilsSpec Fixtures Observations.

Lemma authorize_post_null_state_witness :
  exists r w',
    @authorize_post demo_runtime demo_utils demo_env null_state_form world0 = (Normal r, w')
    /\ status r = 500 /\ same_but_console world0 w'.
Proof.
  apply (@authorize_post_null_state_is_500 demo_runtime demo_utils demo_env
           null_state_form world0
           [("csrf_token", FString "c1"); ("state", FString "bnVsbA")] "bnVsbA");
    reflexivity.
Defined.

Lemma consent_form_valid :
  @valid_submission demo_runtime demo_utils consent_form demo_request.
Proof.
  exists [("csrf_token", FString "c1"); ("state", FString "ZGVtbw")], "ZGVtbw".
  repeat split.
Defined.

Lemma authorize_post_redirect_witness :
  exists r,
    @authorize_post demo_runtime demo_utils demo_env consent_form world0
    = (Normal r, after_consent)
    /\ status r = 302
    /\ header_values "Set-Cookie" (headers r)
       = [render_cookie (@SessionBinder.bind PrefixCipher "k3y" "T1")]
    /\ header_values "Location" (headers r)
       = ["https://reflect.app/oauth?client_id=reflect-client&state=T1"].
Proof.
  apply (@authorize_post_redirect_has_binding_cookie_only demo_runtime demo_utils demo_env
           consent_form world0 demo_request
           (render_cookie (@Ledger.addApprovedClient PrefixCipher DotCodec consent_form
                             "demo" "k3y"))
           "T1" (render_cookie (@SessionBinder.bind PrefixCipher "k3y" "T1"))
           after_consent after_consent consent_form_valid);
    reflexivity.
Defined.

Lemma callback_redirect_witness :
  exists accessToken accessTokenId redirectTo,
    @granted demo_runtime upstream_grants demo_env demo_callback accessToken accessTokenId
    /\ truthy (clientId demo_request) = true
    /\ @completeAuthorization demo_helpers
         (mkComplete accessTokenId accessToken accessTokenId demo_request
            (scope demo_request) accessTokenId) = Normal redirectTo
    /\ callback_redirect "https://client.example/callback?code=granted" "clear"
       = callback_redirect redirectTo "clear".
Proof.
  apply (@callback_redirects_only_with_upstream_token demo_helpers demo_runtime
           upstream_grants demo_env demo_callback demo_request "clear" world0
           (add_console "Completing authorization with user: id-1"
              (add_sent (@token_request demo_runtime demo_env demo_callback "xyz")
                 (add_console "Attempting token exchange with params:" world0))));
    reflexivity.
Defined.

Lemma callback_throws_witness :
  exists w',
    @oauth_callback demo_helpers demo_runtime upstream_down demo_utils demo_env
      demo_callback after_consent
    = (Throw (JsErr (mkError "TypeError" "fetch failed")), w')
    /\ kv w' = kv (set_kv (delete "T1") after_consent)
    /\ sent w'
       = (sent (set_kv (delete "T1") after_consent)
            ++ [@token_request demo_runtime demo_env demo_callback "xyz"])%list.
Proof.
  apply (@callback_throws_when_exchange_breaks demo_helpers demo_runtime upstream_down
           demo_utils demo_env demo_callback after_consent
           (set_kv (delete "T1") after_consent) demo_request
           (render_cookie SessionBinder.unbind) "xyz"
           (mkError "TypeError" "fetch failed"));
    [vm_compute; reflexivity | reflexivity | reflexivity | reflexivity
    | left; reflexivity].
Defined.

End RouteWitnesses.

(** ** reflect-handler.ts: [redirectToReflect] *)
Section RedirectBehaviour.
Import Js Http Worker ReflectHandler Observations.
Context `{Runtime}.
Variable env : Env.

Lemma headers_of_obj_from (o : Obj) (acc : Headers) :
  List.fold_left (fun h e => headers_append (fst e) (snd e) h) o acc
  = (acc ++ List.map (fun e => (lower (fst e), snd e)) o)%list.
Proof.
  revert acc. induction o as [|[k v] o IH]; intros acc; cbn [List.fold_left List.map].
  - now rewrite app_nil_r.
  - rewrite IH. unfold headers_append. cbn [fst snd]. now rewrite <- app_assoc.
Qed.

Lemma headers_of_obj_map (o : Obj) :
  headers_of_obj o = List.map (fun e => (lower (fst e), snd e)) o.
Proof. unfold headers_of_obj. now rewrite headers_of_obj_from. Qed.

Lemma filter_none {A} (f : A -> bool) (l : list A) :
  (forall x, In x l -> f x = false) -> List.filter f l = [].
Proof.
  induction l as [|x l IH]; intros Hf; [reflexivity|].
  cbn [List.filter]. rewrite (Hf x (or_introl eq_refl)).
  apply IH. intros y Hy. apply Hf. right. exact Hy.
Qed.

(** Assigning a key keeps every other entry and leaves one entry for the key. *)
Lemma obj_set_values k v (o : Obj) :
  NoDup (List.map fst o) ->
  List.map snd (List.filter (fun e => String.eqb (fst e) k) (obj_set k v o)) = [v].
Proof.
  induction o as [|[k' v'] o IH]; intros Hnd; cbn [obj_set].
  - cbn [List.filter fst]. rewrite String.eqb_refl. reflexivity.
  - apply NoDup_cons in Hnd as [Hnotin Hnd]. cbn [List.map fst] in Hnotin.
    destruct (String.eqb k' k) eqn:Hk.
    + apply String.eqb_eq in Hk as ->. cbn [List.filter fst].
      rewrite String.eqb_refl. cbn [List.map snd]. f_equal.
      replace (List.filter (fun e => String.eqb (fst e) k) o) with (@nil (string * string));
        [reflexivity|].
      symmetry. apply filter_none. intros [k2 v2] Hin. cbn [fst].
      apply String.eqb_neq. intros ->. apply Hnotin.
      apply list_elem_of_In, in_map_iff. exists (k, v2). split; [reflexivity | exact Hin].
    + cbn [List.filter fst]. rewrite Hk. apply IH, Hnd.
Qed.

Lemma obj_set_keeps k v k' v' (o : Obj) :
  In (k', v') o -> k' <> k -> In (k', v') (obj_set k v o).
Proof.
  induction o as [|[k2 v2] o IH]; intros Hin Hne; [destruct Hin|].
  cbn [obj_set]. destruct (String.eqb k2 k) eqn:Hk.
  - destruct Hin as [[= -> ->]|Hin]; [|right; exact Hin].
    apply String.eqb_eq in Hk. contradiction.
  - destruct Hin as [Heq|Hin]; [left; exact Heq | right; apply IH; assumption].
Qed.

Lemma obj_set_lower k v (o : Obj) :
  lower k = k -> Forall (fun e => lower (fst e) = fst e) o ->
  Forall (fun e => lower (fst e) = fst e) (obj_set k v o).
Proof.
  intros Hk. induction 1 as [|[k' v'] o Hk' Ho IH]; cbn [obj_set].
  - repeat constructor. exact Hk.
  - destruct (String.eqb k' k); constructor; assumption.
Qed.

(** X13: [redirectToReflect] answers 302 without a body. Given a record
    of headers (distinct lower-case keys, as the route passes it), the
    response has exactly one Location header, the upstream authorize URL
    built for the state token, which replaces a location passed in; and
    every other header passed in is kept. *)
Theorem redirectToReflect_sets_location
    (request : Request) (stateToken : string) (hs : Obj) :
  header_record hs ->
  let r := redirectToReflect env request stateToken hs in
  status r = 302 /\ body r = None
  /\ header_values "Location" (headers r)
     = [getUpstreamAuthorizeUrl
          (mkUpstream (REFLECT_CLIENT_ID env)
             (URL_href "/oauth/callback" (req_url request))
             "read:graph,write:graph" "https://reflect.app/oauth" "code" stateToken)]
  /\ (forall k v, In (k, v) hs -> k <> "location" -> In (k, v) (headers r)).
Proof.
  intros [Hnd Hlow] r. subst r. unfold redirectToReflect. cbn [status body headers].
  set (url := getUpstreamAuthorizeUrl _).
  assert (Hid : List.map (fun e => (lower (fst e), snd e)) (obj_set "location" url hs)
                = obj_set "location" url hs).
  { pose proof (obj_set_lower "location" url hs eq_refl Hlow) as Hall.
    induction Hall as [|[k v] o Hk Ho IH]; [reflexivity|].
    cbn [List.map fst snd] in *. now rewrite Hk, IH. }
  rewrite headers_of_obj_map, Hid.
  split; [reflexivity|]. split; [reflexivity|]. split.
  - unfold header_values. change (lower "Location") with "location".
    apply obj_set_values, Hnd.
  - intros k v Hin Hne. apply obj_set_keeps; assumption.
Qed.

End RedirectBehaviour.

Lemma redirectToReflect_witness :
  Observations.header_record [("set-cookie", "a=1"); ("location", "https://evil.example")]
  /\ Http.header_values "Location"
       (Http.headers
          (@ReflectHandler.redirectToReflect Fixtures.demo_runtime Fixtures.demo_env
             Fixtures.bare_request "T1"
             [("set-cookie", "a=1"); ("location", "https://evil.example")]))
     = ["https://reflect.app/oauth?client_id=reflect-client&state=T1"].
Proof.
  assert (Hrec : Observations.header_record
                   [("set-cookie", "a=1"); ("location", "https://evil.example")]).
  { split.
    - repeat constructor; cbn; intros Hin; inversion Hin; subst;
        try discriminate; match goal with H : _ ∈ [] |- _ => inversion H end.
    - repeat constructor. }
  split; [exact Hrec|].
  destruct (@redirectToReflect_sets_location Fixtures.demo_runtime Fixtures.demo_env
              Fixtures.bare_request "T1"
              [("set-cookie", "a=1"); ("location", "https://evil.example")] Hrec)
    as (_ & _ & Hloc & _).
  rewrite Hloc. reflexivity.
Defined.
